(** * Modbus inrush-current analyzer: acquisition, conversion and buffering

    A shallow embedding of the acquisition pipeline of
    [modbus_inrush_current_analyzer.py]: the code -> mA -> A conversion with
    its anti-spike stage ([_code_to_A_int]), the sampling loop body
    ([_worker_loop]) with the warm-up counter and the two retention buffers,
    the UI-side queue consumer ([_process_queue_item]), the trend-window
    control ([_set_trend_window], [_on_trend_window_change]) and the
    "changes only" selection of [on_save_excel].

    Python floats are IEEE binary64 numbers; they are embedded as Rocq's
    primitive floats, so that every arithmetic step of the conversion is the
    one the interpreter performs.  Python integers are [Z].  Timestamps
    ([datetime.datetime.now()]) and the monotonic clock ([time.monotonic()])
    are inputs of a tick; the first is an opaque totally ordered stamp and
    the second a number of milliseconds, both embedded as [Z]. *)

From Stdlib Require Import ZArith List Bool Lia String Sorted Permutation.
From Stdlib Require Import QArith Qround Qminmax.
From Stdlib Require Import PrimFloat FloatOps SpecFloat Uint63.
Import ListNotations.

Set Warnings "-inexact-float".
Local Open Scope Z_scope.

(* ================================================================== *)
(** * Python built-ins used by the pipeline *)
(* ================================================================== *)

Module Py.

(** [float(n)] for an integer that fits 63 bits (every 16-bit code does);
    the conversion is exact below 2^53. *)
Definition float_of_int (n : Z) : float := PrimFloat.of_uint63 (Uint63.of_Z n).

(** [min(a, b)] and [max(a, b)] on floats: the first argument is kept
    unless the second is strictly smaller (resp. larger). *)
Definition min (a b : float) : float := if PrimFloat.ltb b a then b else a.
Definition max (a b : float) : float := if PrimFloat.ltb a b then b else a.

(** Round half to even on the exact value [m * 2^e] of a finite double. *)
Definition round_mantissa (m : positive) (e : Z) : Z :=
  if 0 <=? e then Z.pos m * 2 ^ e
  else
    let d := 2 ^ (- e) in
    let q := Z.pos m / d in
    let r := Z.pos m mod d in
    if 2 * r <? d then q
    else if d <? 2 * r then q + 1
    else if Z.even q then q else q + 1.

(** [round(x)] with one argument: the nearest integer, ties to even.
    Infinities and NaN raise in Python, hence [None]. *)
Definition round (x : float) : option Z :=
  match Prim2SF x with
  | S754_zero _ => Some 0
  | S754_finite s m e =>
      let n := round_mantissa m e in Some (if s then - n else n)
  | S754_infinity _ | S754_nan => None
  end.

(** [l[i:]]: a negative start counts from the end and is clipped at 0. *)
Definition slice_from {A : Type} (i : Z) (l : list A) : list A :=
  let n := Z.of_nat (List.length l) in
  skipn (Z.to_nat (if i <? 0 then Z.max (n + i) 0 else i)) l.

(** [l[i] = v] for an index within range (a list of 8 slots indexed by a
    channel address 0..7); out of range the list is returned as it is. *)
Fixpoint set_item {A : Type} (l : list A) (i : nat) (v : A) : list A :=
  match l, i with
  | [], _ => []
  | _ :: t, O => v :: t
  | h :: t, S j => h :: set_item t j v
  end.

End Py.

(* ================================================================== *)
(** * Conversion CODE -> A *)
(* ================================================================== *)

Module Converter.

(** [_code_to_mA]: 0.000610 mA per code unit. *)
Definition _code_to_mA (code : Z) : float :=
  (0.000610 * Py.float_of_int code)%float.

(** [_mA_to_A]: the 4..20 mA -> 0..63 A line. *)
Definition _mA_to_A (I_mA : float) : float :=
  ((I_mA - 4.0) * (63.0 / 16.0))%float.

(** The codes rejected as garbage. *)
Definition garbage : list Z := [0xFFFF; 0xFFFE; 0x0000; 0x7FFF].

Definition is_garbage (code : Z) : bool := existsb (Z.eqb code) garbage.

(** The stateless part of [_code_to_A_int]: from the raw register to
    [A_int], before the anti-spike test. *)
Definition code_to_A (raw_code : Z) : option Z :=
  let code := Z.land raw_code 0xFFFF in
  if is_garbage code then None
  else
    let I := _code_to_mA code in
    if (PrimFloat.ltb I 3.8 || PrimFloat.ltb 30.0 I)%bool then None
    else
      let A := _mA_to_A I in
      let A := Py.max 0.0 (Py.min 63.0 A) in
      Py.round A.

(** The anti-spike stage that ends [_code_to_A_int]: the value returned
    and the new [_last_a_int]. *)
Definition antispike (last : option Z) (A_int : Z) : Z * option Z :=
  match last with
  | Some l => if Z.abs (A_int - l) >? 10 then (l, Some l)
              else (A_int, Some A_int)
  | None => (A_int, Some A_int)
  end.

(** [_code_to_A_int] with [self._last_a_int] passed explicitly. *)
Definition _code_to_A_int (last : option Z) (raw_code : option Z)
  : option Z * option Z :=
  match raw_code with
  | None => (None, last)
  | Some raw =>
      match code_to_A raw with
      | None => (None, last)
      | Some A_int =>
          let '(r, last') := antispike last A_int in (Some r, last')
      end
  end.

(** ** The converter as the specification words it, in exact arithmetic *)

Definition mA_exact (code : Z) : Q := (61 # 100000) * inject_Z code.

Definition A_exact (code : Z) : Q := (mA_exact code - 4) * (63 # 16).

Definition clamp (lo hi x : Q) : Q := Qmax lo (Qmin hi x).

(** Nearest integer, a tie going up, and nearest integer, a tie going to
    the even neighbour. *)
Definition nearest_up (x : Q) : Z := Qfloor (x + (1 # 2)).

Definition nearest_even (x : Q) : Z :=
  let f := Qfloor x in
  match Qcompare (x - inject_Z f) (1 # 2) with
  | Lt => f
  | Gt => f + 1
  | Eq => if Z.even f then f else f + 1
  end.

Definition out_of_band (code : Z) : bool :=
  (match Qcompare (mA_exact code) (38 # 10) with Lt => true | _ => false end
   || match Qcompare (mA_exact code) 30 with Gt => true | _ => false end)%bool.

Definition convert_spec (nearest : Q -> Z) (code : Z) : option Z :=
  if (is_garbage code || out_of_band code)%bool then None
  else Some (nearest (clamp 0 63 (A_exact code))).

End Converter.

(* ================================================================== *)
(** * Exhaustive checks over the 16-bit codes *)
(* ================================================================== *)

(** [p] holds on the [n] integers that start at [c]. *)
Fixpoint all_from (p : Z -> bool) (n : nat) (c : Z) : bool :=
  match n with
  | O => true
  | S m => p c && all_from p m (c + 1)
  end.

(** On code [c] the conversion of the source and the two readings of the
    specification give the same answer, a value within 0..63 if any. *)
Definition agrees (c : Z) : bool :=
  match Converter.code_to_A c,
        Converter.convert_spec Converter.nearest_up c,
        Converter.convert_spec Converter.nearest_even c with
  | Some a, Some b, Some d =>
      ((a =? b) && (a =? d) && (0 <=? a) && (a <=? 63))%bool
  | None, None, None => true
  | _, _, _ => false
  end.

(* ================================================================== *)
(** * The application state and its operations *)
(* ================================================================== *)

(** A point of [series_all]: [(ts, a_int)]. *)
Definition point : Type := Z * Z.

(** A line of [trend_buffer]: [(ts, [8 slots])]. *)
Definition trend_point : Type := Z * list (option Z).

(** The messages of [data_queue]. *)
Inductive queue_item : Type :=
| Values (ts : Z) (a_int : option Z)
| Status (text : string).

(** The fields of [App] the pipeline reads or writes.  [fast_channel_var]
    holds the channel number the entry parses to; [worker_alive] stands for
    [worker_thread.is_alive()]; [next_ui_push] is the local of
    [_worker_loop] of that name, in milliseconds. *)
Record App : Type := mkApp {
  sample_interval_ms : Z;
  window_seconds : Z;
  points_per_second : Z;
  trend_buffer_max : Z;
  series_all : list point;
  trend_buffer : list trend_point;
  data_queue : list queue_item;
  fast_channel_var : Z;
  _warmup_to_skip : Z;
  _warmup_left : Z;
  _last_a_int : option Z;
  worker_alive : bool;
  next_ui_push : Z
}.

(** What one iteration of the loop reads from outside: the registers
    returned by [read_ch] ([None] on any failure), the wall-clock stamp and
    the two readings of the monotonic clock around the UI push. *)
Record tick : Type := mkTick {
  raw : option (list Z);
  ts : Z;
  mono_test : Z;
  mono_push : Z
}.

Module Sampler.

(** [_set_trend_window]. *)
Definition _set_trend_window (s : App) (seconds : Z) : App :=
  mkApp (sample_interval_ms s) seconds (points_per_second s)
        (seconds * points_per_second s)
        (series_all s) (trend_buffer s) (data_queue s)
        (fast_channel_var s) (_warmup_to_skip s) (_warmup_left s)
        (_last_a_int s) (worker_alive s) (next_ui_push s).

(** [_on_trend_window_change], the combobox text being [label]; the
    redraw that follows only reads the state. *)
Definition _on_trend_window_change (s : App) (label : string) : App :=
  if String.eqb label "10 s" then _set_trend_window s 10
  else if String.eqb label "30 s" then _set_trend_window s 30
  else if String.eqb label "60 s" then _set_trend_window s 60
  else if String.eqb label "5 min" then _set_trend_window s 300
  else s.

(** [__init__], as far as the pipeline is concerned. *)
Definition init : App :=
  _set_trend_window
    (mkApp 10 60 (1000 / 10) 0 [] [] [] 1 10 0 None false 0) 60.

(** The append-then-trim of the trend buffer, written out at both places
    that append to it:
    [buf.append(x); if len(buf) > max: buf = buf[-max:]]. *)
Definition trend_append (buf : list trend_point) (cap : Z) (x : trend_point)
  : list trend_point :=
  let buf := buf ++ [x] in
  if Z.of_nat (List.length buf) >? cap then Py.slice_from (- cap) buf
  else buf.

(** [[None]*8] with slot [i] set. *)
Definition line (i : Z) (a_int : option Z) : list (option Z) :=
  Py.set_item (repeat None 8) (Z.to_nat i) a_int.

Definition with_trend (s : App) (buf : list trend_point) : App :=
  mkApp (sample_interval_ms s) (window_seconds s) (points_per_second s)
        (trend_buffer_max s) (series_all s) buf (data_queue s)
        (fast_channel_var s) (_warmup_to_skip s) (_warmup_left s)
        (_last_a_int s) (worker_alive s) (next_ui_push s).

(** [_process_queue_item]. *)
Definition _process_queue_item (s : App) (item : queue_item) : App :=
  match item with
  | Values ts a_int =>
      let ch := Z.max 1 (Z.min 8 (fast_channel_var s)) - 1 in
      with_trend s
        (trend_append (trend_buffer s) (trend_buffer_max s)
           (ts, line ch a_int))
  | Status _ => s
  end.

(** [_schedule_queue_pump]: the queue is drained in order. *)
Definition _schedule_queue_pump (s : App) : App :=
  let s0 :=
    mkApp (sample_interval_ms s) (window_seconds s) (points_per_second s)
          (trend_buffer_max s) (series_all s) (trend_buffer s) []
          (fast_channel_var s) (_warmup_to_skip s) (_warmup_left s)
          (_last_a_int s) (worker_alive s) (next_ui_push s) in
  fold_left _process_queue_item (data_queue s) s0.

(** [on_start], the connection being up: buffers cleared, warm-up and
    anti-spike state reset, worker started with [next_ui_push] set to the
    clock reading [mono]. *)
Definition on_start (s : App) (mono : Z) : App :=
  if worker_alive s then s
  else
    mkApp (sample_interval_ms s) (window_seconds s) (points_per_second s)
          (trend_buffer_max s) [] [] (data_queue s)
          (fast_channel_var s) (_warmup_to_skip s) (_warmup_to_skip s)
          None true mono.

(** [on_stop]: the worker leaves its loop and posts its final status. *)
Definition on_stop (s : App) : App :=
  if worker_alive s then
    mkApp (sample_interval_ms s) (window_seconds s) (points_per_second s)
          (trend_buffer_max s) (series_all s) (trend_buffer s)
          (data_queue s ++ [Status "connected"])
          (fast_channel_var s) (_warmup_to_skip s) (_warmup_left s)
          (_last_a_int s) false (next_ui_push s)
  else s.

(** [on_clear_data]. *)
Definition on_clear_data (s : App) : App :=
  mkApp (sample_interval_ms s) (window_seconds s) (points_per_second s)
        (trend_buffer_max s) [] [] (data_queue s)
        (fast_channel_var s) (_warmup_to_skip s) (_warmup_left s)
        None (worker_alive s) (next_ui_push s).

(** The value of [a_int] in one iteration of [_worker_loop] and the new
    [_last_a_int]: [raw[0]] is converted when the read gave at least one
    register. *)
Definition read_value (last : option Z) (r : option (list Z))
  : option Z * option Z :=
  match r with
  | Some (c :: _) => Converter._code_to_A_int last (Some c)
  | Some [] | None => (None, last)
  end.

(** One iteration of the loop of [_worker_loop], for the channel the run
    was started on ([address = fast_channel - 1]). *)
Definition worker_step (address : Z) (s : App) (i : tick) : App :=
  let '(a_int, last) := read_value (_last_a_int s) (raw i) in
  match a_int with
  | None =>
      mkApp (sample_interval_ms s) (window_seconds s) (points_per_second s)
            (trend_buffer_max s) (series_all s) (trend_buffer s)
            (data_queue s) (fast_channel_var s) (_warmup_to_skip s)
            (_warmup_left s) last (worker_alive s) (next_ui_push s)
  | Some a =>
      if _warmup_left s >? 0 then
        mkApp (sample_interval_ms s) (window_seconds s) (points_per_second s)
              (trend_buffer_max s) (series_all s) (trend_buffer s)
              (data_queue s) (fast_channel_var s) (_warmup_to_skip s)
              (_warmup_left s - 1) last (worker_alive s) (next_ui_push s)
      else if mono_test i >=? next_ui_push s then
        mkApp (sample_interval_ms s) (window_seconds s) (points_per_second s)
              (trend_buffer_max s) (series_all s ++ [(ts i, a)])
              (trend_buffer s)
              (data_queue s ++ [Values (ts i) (Some a)])
              (fast_channel_var s) (_warmup_to_skip s)
              (_warmup_left s) last (worker_alive s) (mono_push i + 80)
      else
        mkApp (sample_interval_ms s) (window_seconds s) (points_per_second s)
              (trend_buffer_max s) (series_all s ++ [(ts i, a)])
              (trend_append (trend_buffer s) (trend_buffer_max s)
                 (ts i, line address (Some a)))
              (data_queue s) (fast_channel_var s) (_warmup_to_skip s)
              (_warmup_left s) last (worker_alive s) (next_ui_push s)
  end.

(** A run of the loop over the ticks it lives through. *)
Definition worker_run (address : Z) (s : App) (ticks : list tick) : App :=
  fold_left (worker_step address) ticks s.

(** The readings [(ts, a_int)] with [a_int] present that the conversion
    hands to the warm-up test along a run, the anti-spike state being
    threaded through. *)
Fixpoint readings (last : option Z) (ticks : list tick) : list point :=
  match ticks with
  | [] => []
  | i :: rest =>
      let '(a_int, last') := read_value last (raw i) in
      match a_int with
      | Some a => (ts i, a) :: readings last' rest
      | None => readings last' rest
      end
  end.

End Sampler.

(* ================================================================== *)
(** * The "changes only" selection of [on_save_excel] *)
(* ================================================================== *)

Module Changes.

(** [sorted(series_all, key=lambda x: x[0])]: a stable sort on the
    stamps, here by insertion after the last element not greater. *)
Fixpoint insert_by_ts (p : point) (l : list point) : list point :=
  match l with
  | [] => [p]
  | q :: r => if fst q <=? fst p then q :: insert_by_ts p r else p :: l
  end.

Definition sorted_by_ts (l : list point) : list point :=
  fold_left (fun acc p => insert_by_ts p acc) l [].

(** Two points in stamp order. *)
Definition ts_le (p q : point) : Prop := fst p <= fst q.

(** The body of the [for ts, a in rows] loop on the pair
    [(changes, last)]. *)
Definition scan_step (st : list point * option Z) (p : point)
  : list point * option Z :=
  let '(changes, last) := st in
  match last with
  | None => (changes ++ [p], Some (snd p))
  | Some v => if snd p =? v then st else (changes ++ [p], Some (snd p))
  end.

(** The loop. *)
Definition scan (rows : list point) : list point * option Z :=
  fold_left scan_step rows ([], None).

(** The loop followed by
    [if changes and changes[-1][0] != rows[-1][0]: changes.append(rows[-1])].
    [rows[-1]] is evaluated only when [changes] is not empty, which makes
    [rows] not empty. *)
Definition compress (rows : list point) : list point :=
  let changes := fst (scan rows) in
  match changes with
  | [] => changes
  | c0 :: _ =>
      let lc := List.last changes c0 in
      let lr := List.last rows c0 in
      if fst lc =? fst lr then changes else changes ++ [lr]
  end.

(** [changes] as [on_save_excel] computes it from [series_all]. *)
Definition changes_of (series : list point) : list point :=
  compress (sorted_by_ts series).

(** ** The selection as the specification words it *)

(** After a retained value [v]: a point is retained exactly when its value
    differs from the most recently retained one. *)
Fixpoint retain_after (v : Z) (rows : list point) : list point :=
  match rows with
  | [] => []
  | p :: r => if snd p =? v then retain_after v r
              else p :: retain_after (snd p) r
  end.

(** The first point always, then the transitions. *)
Definition retained (rows : list point) : list point :=
  match rows with
  | [] => []
  | p :: r => p :: retain_after (snd p) r
  end.

(** The retained points, and the final point of the input when the last
    retained stamp is not the input's last stamp. *)
Definition compress_spec (rows : list point) : list point :=
  match rows with
  | [] => []
  | p :: _ =>
      let kept := retained rows in
      if fst (List.last kept p) =? fst (List.last rows p) then kept
      else kept ++ [List.last rows p]
  end.

End Changes.

(* ================================================================== *)
(** * The states the application can be in *)
(* ================================================================== *)

(** The states reached from [__init__] by the UI callbacks and by the
    iterations of the worker, each taken as one step.  The worker iterates
    only while it is alive, on the address [fast_ch - 1] that [on_start]
    clipped into 0..7. *)
Inductive reachable : App -> Prop :=
| reach_init : reachable Sampler.init
| reach_start s mono :
    reachable s -> reachable (Sampler.on_start s mono)
| reach_stop s :
    reachable s -> reachable (Sampler.on_stop s)
| reach_step s address i :
    reachable s -> worker_alive s = true -> 0 <= address < 8 ->
    reachable (Sampler.worker_step address s i)
| reach_pump s :
    reachable s -> reachable (Sampler._schedule_queue_pump s)
| reach_window s label :
    reachable s -> reachable (Sampler._on_trend_window_change s label)
| reach_clear s :
    reachable s -> reachable (Sampler.on_clear_data s).

(** The last [n] elements of a list. *)
Definition lastn {A : Type} (n : Z) (l : list A) : list A :=
  skipn (List.length l - Z.to_nat n) l.

(** A tick that reads the single register [code]. *)
Definition tick_of (code ts mono : Z) : tick :=
  mkTick (Some [code]) ts mono mono.

(** The warm-up counter after [n] readings reached the warm-up test,
    starting from [w]. *)
Definition counter_after (w : Z) (n : nat) : Z :=
  if w <=? 0 then w else Z.max 0 (w - Z.of_nat n).

(** The ticks that read the given codes one after the other, ten
    milliseconds apart. *)
Fixpoint ticks_of (codes : list Z) (t : Z) : list tick :=
  match codes with
  | [] => []
  | c :: r => tick_of c t t :: ticks_of r (t + 10)
  end.

(** [s] with the attribute [_warmup_to_skip] set to [n] (the source fixes
    it to 10 in [__init__]). *)
Definition with_warmup_to_skip (s : App) (n : Z) : App :=
  mkApp (sample_interval_ms s) (window_seconds s) (points_per_second s)
        (trend_buffer_max s) (series_all s) (trend_buffer s) (data_queue s)
        (fast_channel_var s) n (_warmup_left s)
        (_last_a_int s) (worker_alive s) (next_ui_push s).


(* ================================================================== *)
(** * Invariants *)
(* ================================================================== *)

(** A value within the range of the 0..63 A line. *)
Definition in_range (v : Z) : Prop := 0 <= v <= 63.

Definition last_in_range (last : option Z) : Prop :=
  forall v, last = Some v -> in_range v.

Definition queue_in_range (q : list queue_item) : Prop :=
  forall ts v, In (Values ts (Some v)) q -> in_range v.

(** The invariant: logged values, anti-spike baseline and queued values
    are within 0..63. *)
Definition values_in_range (s : App) : Prop :=
  (forall p, In p (series_all s) -> in_range (snd p))
  /\ last_in_range (_last_a_int s)
  /\ queue_in_range (data_queue s).

(** The capacity is the window times the rate, and is positive. *)
Definition capacity_ok (s : App) : Prop :=
  trend_buffer_max s = window_seconds s * points_per_second s
  /\ points_per_second s = 100
  /\ In (window_seconds s) [10; 30; 60; 300].


(** The state of a run started from [__init__] after twelve readings of
    5 A: ten consumed by the warm-up, two logged. *)
Definition warm_state : App :=
  Sampler.worker_run 0 (Sampler.on_start Sampler.init 0)
    (ticks_of (repeat 8639 12) 0).

(* ================================================================== *)
(** * The conversion in integers *)
(* ================================================================== *)

(** The integer formula the conversion amounts to: the accepted codes and,
    on them, [floor((3843 * code - 24400000) / 1600000)] clipped to 0..63,
    which is [(0.00061 * code - 4) * 63 / 16 + 1/2] rounded down. *)
Definition code_to_A_closed (code : Z) : option Z :=
  if ((code <? 6230) || (49180 <? code) || (code =? 0x7FFF))%bool then None
  else Some (Z.max 0 (Z.min 63 ((3843 * code - 24400000) / 1600000))).

(** On code [c] the conversion of the source gives what the integer
    formula gives. *)
Definition agrees_closed (c : Z) : bool :=
  match Converter.code_to_A c, code_to_A_closed c with
  | Some a, Some b => a =? b
  | None, None => true
  | _, _ => false
  end.



(** Every candidate of the ticks is more than 10 A away from [l]. *)
Definition all_far (l : Z) (ticks : list tick) : Prop :=
  forall i c rest a,
    In i ticks -> raw i = Some (c :: rest) ->
    Converter.code_to_A c = Some a -> Z.abs (a - l) > 10.



(** A list that keeps some elements of another, in their order. *)
Inductive subseq {A : Type} : list A -> list A -> Prop :=
| subseq_nil : subseq [] []
| subseq_skip x l1 l2 : subseq l1 l2 -> subseq l1 (x :: l2)
| subseq_keep x l1 l2 : subseq l1 l2 -> subseq (x :: l1) (x :: l2).

(* ================================================================== *)
(** * The elapsed-time label *)
(* ================================================================== *)

Module Timer.

(** [_timer_tick]: the hours, minutes and seconds shown for [total]
    elapsed seconds ([//] and [%] round down). *)
Definition fields (total : Z) : Z * Z * Z :=
  (total / 3600, (total mod 3600) / 60, total mod 60).

End Timer.

(* ================================================================== *)
(** * What [_redraw_trend] computes before it draws *)
(* ================================================================== *)

Module Plot.

(** [next((x for x in vals if isinstance(x, int)), None)]. *)
Fixpoint first_int (vals : list (option Z)) : option Z :=
  match vals with
  | [] => None
  | Some x :: _ => Some x
  | None :: r => first_int r
  end.

(** [data_window = self.trend_buffer[-self.trend_buffer_max:]]. *)
Definition data_window (s : App) : list trend_point :=
  Py.slice_from (- trend_buffer_max s) (trend_buffer s).

(** [series_vals]: the value of the active channel in each line. *)
Definition series_vals (window : list trend_point) : list (option Z) :=
  map (fun p => first_int (snd p)) window.

(** [plot_w = max(10, w - left_pad - right_pad)]. *)
Definition plot_w (w : Z) : Z := Z.max 10 (w - 46 - 10).

(** [step = max(1, int((n_full + plot_w - 1) // plot_w))]. *)
Definition step (n_full pw : Z) : Z := Z.max 1 ((n_full + pw - 1) / pw).

(** [range(i, n, step)] for a positive step, at most [fuel] indices. *)
Fixpoint range_from (fuel : nat) (i n st : Z) : list Z :=
  match fuel with
  | O => []
  | S f => if i <? n then i :: range_from f (i + st) n st else []
  end.

(** [range(0, n_full, step)]: a positive step leaves at most [n_full]
    indices. *)
Definition drawn (n_full st : Z) : list Z :=
  range_from (Z.to_nat n_full) 0 n_full st.

End Plot.

(* ================================================================== *)
(** * Channel control over the holding registers *)
(* ================================================================== *)

Module Channels.

Definition unlock_reg : Z := 49.
Definition ctrl_base : Z := 8.

(** The connection as the channel control sees it: the flag
    [is_connected] of the window, the flag [connected] of the client, the
    flag [_muted], and the write requests sent so far, oldest first. *)
Record Link : Type := mkLink {
  is_connected : bool;
  connected : bool;
  _muted : bool;
  issued : list (Z * Z)
}.

(** [write_reg]: nothing is sent without a connected client; otherwise
    the register receives [int(value) & 0xFFFF].  The answer of the device
    is not looked at by the callers below. *)
Definition write_reg (k : Link) (address value : Z) : Link :=
  if connected k then
    mkLink (is_connected k) (connected k) (_muted k)
           (issued k ++ [(address, Z.land value 0xFFFF)])
  else k.

(** [for i in range(8): write_reg(ctrl_base + i, v)]. *)
Definition write_all (k : Link) (v : Z) : Link :=
  fold_left (fun k i => write_reg k (ctrl_base + i) v)
            [0; 1; 2; 3; 4; 5; 6; 7] k.

Definition set_muted (k : Link) (b : bool) : Link :=
  mkLink (is_connected k) (connected k) b (issued k).

(** [_mute_others_and_enable_selected]. *)
Definition _mute_others_and_enable_selected (k : Link) (fast_ch : Z) : Link :=
  if negb (is_connected k) then k
  else
    let k := write_reg k unlock_reg 1 in
    let k := write_all k 0 in
    let k := write_reg k (ctrl_base + (fast_ch - 1)) 1 in
    let k := write_reg k unlock_reg 0 in
    set_muted k true.

(** [_restore_channels]. *)
Definition _restore_channels (k : Link) : Link :=
  if (negb (_muted k) || negb (is_connected k))%bool then set_muted k false
  else
    let k := write_reg k unlock_reg 1 in
    let k := write_all k 1 in
    let k := write_reg k unlock_reg 0 in
    set_muted k false.

(** [fast_ch = max(1, min(8, int(self.fast_channel_var.get())))]. *)
Definition fast_ch (var : Z) : Z := Z.max 1 (Z.min 8 var).

(** The holding registers of a device that carries out every write it
    receives. *)
Definition registers : Type := Z -> Z.

Definition store (r : registers) (w : Z * Z) : registers :=
  fun a => if a =? fst w then snd w else r a.

Definition replay (r : registers) (ws : list (Z * Z)) : registers :=
  fold_left store ws r.

(** The handshake of [on_connect]: up to three reads of the selected
    channel, [reads k] being the answer to the read number [k]; the result
    is [ok] and the number of reads made. *)
Definition answered (vals : option (list Z)) : bool :=
  match vals with
  | Some (_ :: _) => true
  | Some [] | None => false
  end.

Fixpoint handshake_from (fuel : nat) (k : nat) (reads : nat -> option (list Z))
  : bool * nat :=
  match fuel with
  | O => (false, k)
  | S f => if answered (reads k) then (true, S k)
           else handshake_from f (S k) reads
  end.

Definition handshake (reads : nat -> option (list Z)) : bool * nat :=
  handshake_from 3 0 reads.

End Channels.

(* ================================================================== *)
(** * The sheets of [on_save_excel] *)
(* ================================================================== *)

Module Sheets.



End Sheets.

(** The lines of the values queued for the trend, as
    [_process_queue_item] builds them for channel slot [ch]. *)
Fixpoint queued_lines (ch : Z) (q : list queue_item) : list trend_point :=
  match q with
  | [] => []
  | Values t a :: r => (t, Sampler.line ch a) :: queued_lines ch r
  | Status _ :: r => queued_lines ch r
  end.

(** A trend line that carries a value of 0..63 A for the plot. *)
Definition line_ok (p : trend_point) : Prop :=
  exists v, Plot.first_int (snd p) = Some v /\ 0 <= v <= 63.

(** A queued message that is a status or a value of 0..63 A. *)
Definition item_ok (item : queue_item) : Prop :=
  match item with
  | Values _ (Some v) => 0 <= v <= 63
  | Values _ None => False
  | Status _ => True
  end.

(** The invariant of the trend: every buffered line and every queued
    value is fit for the plot. *)
Definition trend_ok (s : App) : Prop :=
  Forall line_ok (trend_buffer s) /\ Forall item_ok (data_queue s)
  /\ last_in_range (_last_a_int s).

(* ================================================================== *)
(** * The converter *)
(* ================================================================== *)

Lemma all_from_spec (p : Z -> bool) (n : nat) :
  forall c, all_from p n c = true ->
  forall k, c <= k < c + Z.of_nat n -> p k = true.
Proof.
  induction n as [|m IH]; intros c H k Hk.
  - simpl in Hk. lia.
  - cbn [all_from] in H. apply andb_true_iff in H as [Hc Hm].
    destruct (Z.eq_dec k c) as [->|Hne]; [exact Hc|].
    apply (IH (c + 1) Hm). lia.
Qed.

Lemma all_codes_agree : all_from agrees (Z.to_nat 65536) 0 = true.
Proof. vm_compute. reflexivity. Qed.

Lemma agrees_on_codes (c : Z) : 0 <= c < 65536 -> agrees c = true.
Proof.
  intros Hc. apply (all_from_spec agrees (Z.to_nat 65536) 0 all_codes_agree).
  rewrite Z2Nat.id; lia.
Qed.

Lemma mask_range (raw : Z) : 0 <= Z.land raw 0xFFFF < 65536.
Proof.
  change 0xFFFF with (Z.ones 16). rewrite Z.land_ones by lia.
  change (2 ^ 16) with 65536. apply Z.mod_pos_bound. lia.
Qed.

Lemma mask_idem (raw : Z) : Z.land (Z.land raw 0xFFFF) 0xFFFF = Z.land raw 0xFFFF.
Proof. rewrite <- Z.land_assoc. reflexivity. Qed.

Lemma code_to_A_mask (raw : Z) :
  Converter.code_to_A raw = Converter.code_to_A (Z.land raw 0xFFFF).
Proof. unfold Converter.code_to_A. rewrite mask_idem. reflexivity. Qed.

(** Every value the conversion yields is within 0..63. *)
Lemma code_to_A_range (raw a : Z) :
  Converter.code_to_A raw = Some a -> 0 <= a <= 63.
Proof.
  rewrite code_to_A_mask. intros H.
  pose proof (agrees_on_codes _ (mask_range raw)) as G.
  unfold agrees in G. rewrite H in G.
  destruct (Converter.convert_spec Converter.nearest_up _); [|discriminate].
  destruct (Converter.convert_spec Converter.nearest_even _); [|discriminate].
  apply andb_true_iff in G as [G G4]. apply andb_true_iff in G as [G G3].
  lia.
Qed.

Lemma code_to_A_spec (raw : Z) :
  Converter.code_to_A raw
    = Converter.convert_spec Converter.nearest_up (Z.land raw 0xFFFF)
  /\ Converter.code_to_A raw
    = Converter.convert_spec Converter.nearest_even (Z.land raw 0xFFFF).
Proof.
  rewrite code_to_A_mask.
  pose proof (agrees_on_codes _ (mask_range raw)) as G.
  unfold agrees in G.
  destruct (Converter.code_to_A _) as [a|];
    destruct (Converter.convert_spec Converter.nearest_up _) as [b|];
    destruct (Converter.convert_spec Converter.nearest_even _) as [d|];
    try discriminate; [|split; reflexivity].
  apply andb_true_iff in G as [G _]. apply andb_true_iff in G as [G _].
  apply andb_true_iff in G as [G1 G2].
  apply Z.eqb_eq in G1, G2. subst. split; reflexivity.
Qed.

Lemma is_garbage_In (code : Z) :
  Converter.is_garbage code = true <-> In code Converter.garbage.
Proof.
  unfold Converter.is_garbage. rewrite existsb_exists. split.
  - intros [x [Hx E]]. apply Z.eqb_eq in E. subst. exact Hx.
  - intros H. exists code. split; [exact H|apply Z.eqb_refl].
Qed.

Lemma out_of_band_iff (code : Z) :
  Converter.out_of_band code = true <->
  (Converter.mA_exact code < 38 # 10)%Q \/ (30 < Converter.mA_exact code)%Q.
Proof.
  unfold Converter.out_of_band. rewrite orb_true_iff.
  rewrite Qlt_alt, Qgt_alt.
  destruct (Qcompare (Converter.mA_exact code) (38 # 10));
    destruct (Qcompare (Converter.mA_exact code) 30);
    split; intros [H|H]; try discriminate; auto.
Qed.

(** C1. For every raw register value, the conversion stage of
    [_code_to_A_int] applied to it is the converter of the specification
    applied to the 16-bit code [raw & 0xFFFF]: absent exactly when the code
    is one of 0xFFFF, 0xFFFE, 0x0000, 0x7FFF or [0.000610 * code] lies
    strictly outside [3.8, 30.0], and otherwise the integer nearest to
    [(0.000610 * code - 4.0) * 63/16] clamped to [0, 63] (no tie arises, so
    ties-up and ties-to-even agree).  With no last accepted value,
    [_code_to_A_int] returns exactly that result. *)
Theorem C1_converter (raw : Z) :
  (Converter.code_to_A raw = None <->
     In (Z.land raw 0xFFFF) Converter.garbage
     \/ (Converter.mA_exact (Z.land raw 0xFFFF) < 38 # 10)%Q
     \/ (30 < Converter.mA_exact (Z.land raw 0xFFFF))%Q)
  /\ Converter.code_to_A raw
     = Converter.convert_spec Converter.nearest_up (Z.land raw 0xFFFF)
  /\ Converter.code_to_A raw
     = Converter.convert_spec Converter.nearest_even (Z.land raw 0xFFFF)
  /\ (forall last,
        fst (Converter._code_to_A_int last (Some raw)) = None
        <-> Converter.code_to_A raw = None)
  /\ Converter._code_to_A_int None (Some raw)
     = (Converter.code_to_A raw, Converter.code_to_A raw).
Proof.
  destruct (code_to_A_spec raw) as [Hup Hev].
  split; [|split; [exact Hup|split; [exact Hev|split]]].
  - rewrite Hup. unfold Converter.convert_spec.
    rewrite <- is_garbage_In, <- out_of_band_iff, <- orb_true_iff.
    destruct (Converter.is_garbage _ || Converter.out_of_band _)%bool;
      split; intros H; try reflexivity; discriminate.
  - intros last. unfold Converter._code_to_A_int.
    destruct (Converter.code_to_A raw) as [a|]; [|split; reflexivity].
    destruct (Converter.antispike last a). simpl. split; discriminate.
  - unfold Converter._code_to_A_int.
    destruct (Converter.code_to_A raw); reflexivity.
Qed.

(* ================================================================== *)
(** * The anti-spike stage *)
(* ================================================================== *)

Lemma antispike_first (c : Z) : Converter.antispike None c = (c, Some c).
Proof. reflexivity. Qed.

Lemma antispike_reject (l c : Z) :
  Z.abs (c - l) > 10 -> Converter.antispike (Some l) c = (l, Some l).
Proof.
  intros H. unfold Converter.antispike.
  destruct (Z.gtb_spec (Z.abs (c - l)) 10); [reflexivity|lia].
Qed.

Lemma antispike_accept (l c : Z) :
  Z.abs (c - l) <= 10 -> Converter.antispike (Some l) c = (c, Some c).
Proof.
  intros H. unfold Converter.antispike.
  destruct (Z.gtb_spec (Z.abs (c - l)) 10); [lia|reflexivity].
Qed.

Lemma code_to_A_int_stages (last : option Z) (raw a : Z) :
  Converter.code_to_A raw = Some a ->
  Converter._code_to_A_int last (Some raw)
  = (Some (fst (Converter.antispike last a)),
     snd (Converter.antispike last a)).
Proof.
  intros H. unfold Converter._code_to_A_int. rewrite H.
  destruct (Converter.antispike last a). reflexivity.
Qed.

(** C2. The anti-spike stage of [_code_to_A_int]: with no last accepted
    value the candidate is returned and recorded; with a last accepted value
    [l] and [|candidate - l| > 10] the value [l] is returned and stays
    recorded; otherwise the candidate is returned and recorded.  With
    [l = 20], candidate 35 gives 20 (state 20) and candidate 28 gives 28
    (state 28). *)
Theorem C2_spike_filter :
  (forall c, Converter.antispike None c = (c, Some c))
  /\ (forall l c, Z.abs (c - l) > 10 ->
        Converter.antispike (Some l) c = (l, Some l))
  /\ (forall l c, Z.abs (c - l) <= 10 ->
        Converter.antispike (Some l) c = (c, Some c))
  /\ (forall last raw a, Converter.code_to_A raw = Some a ->
        Converter._code_to_A_int last (Some raw)
        = (Some (fst (Converter.antispike last a)),
           snd (Converter.antispike last a)))
  /\ Converter.antispike (Some 20) 35 = (20, Some 20)
  /\ Converter.antispike (Some 20) 28 = (28, Some 28).
Proof.
  split; [exact antispike_first|].
  split; [exact antispike_reject|].
  split; [exact antispike_accept|].
  split; [exact code_to_A_int_stages|].
  split; reflexivity.
Qed.

Lemma C2_spike_filter_witness :
  Converter.antispike (Some 5) 40 = (5, Some 5)
  /\ Converter.antispike (Some 5) 6 = (6, Some 6)
  /\ Converter._code_to_A_int (Some 5) (Some 23211) = (Some 5, Some 5).
Proof.
  split; [|split].
  - apply (proj1 (proj2 C2_spike_filter)). vm_compute. reflexivity.
  - apply (proj1 (proj2 (proj2 C2_spike_filter))). vm_compute. discriminate.
  - apply (proj1 (proj2 (proj2 (proj2 C2_spike_filter))) (Some 5) 23211 40).
    vm_compute. reflexivity.
Defined.

(* ================================================================== *)
(** * The loop: warm-up and the full-history log *)
(* ================================================================== *)

Section Loop.

Import Sampler.

Variable address : Z.

(** What one iteration does to the log, the counter and the anti-spike
    state, by the reading it got. *)
Lemma worker_step_absent (s : App) (i : tick) :
  fst (read_value (_last_a_int s) (raw i)) = None ->
  series_all (worker_step address s i) = series_all s
  /\ _warmup_left (worker_step address s i) = _warmup_left s
  /\ trend_buffer (worker_step address s i) = trend_buffer s.
Proof.
  unfold worker_step.
  destruct (read_value (_last_a_int s) (raw i)) as [a last]. simpl.
  intros ->. auto.
Qed.

Lemma worker_step_warmup (s : App) (i : tick) (a : Z) :
  fst (read_value (_last_a_int s) (raw i)) = Some a ->
  _warmup_left s > 0 ->
  series_all (worker_step address s i) = series_all s
  /\ _warmup_left (worker_step address s i) = _warmup_left s - 1
  /\ trend_buffer (worker_step address s i) = trend_buffer s
  /\ data_queue (worker_step address s i) = data_queue s.
Proof.
  unfold worker_step.
  destruct (read_value (_last_a_int s) (raw i)) as [a' last]. simpl.
  intros -> H.
  destruct (Z.gtb_spec (_warmup_left s) 0); [simpl; auto|lia].
Qed.

Lemma worker_step_retained (s : App) (i : tick) (a : Z) :
  fst (read_value (_last_a_int s) (raw i)) = Some a ->
  _warmup_left s <= 0 ->
  series_all (worker_step address s i) = series_all s ++ [(ts i, a)]
  /\ _warmup_left (worker_step address s i) = _warmup_left s.
Proof.
  unfold worker_step.
  destruct (read_value (_last_a_int s) (raw i)) as [a' last]. simpl.
  intros -> H.
  destruct (Z.gtb_spec (_warmup_left s) 0); [lia|].
  destruct (mono_test i >=? next_ui_push s); simpl; auto.
Qed.

Lemma worker_step_last (s : App) (i : tick) :
  _last_a_int (worker_step address s i)
  = snd (read_value (_last_a_int s) (raw i)).
Proof.
  unfold worker_step.
  destruct (read_value (_last_a_int s) (raw i)) as [[a|] last]; simpl;
    [|reflexivity].
  destruct (_warmup_left s >? 0); [reflexivity|].
  destruct (mono_test i >=? next_ui_push s); reflexivity.
Qed.

(** A run appends to the log the readings that come after the first
    [_warmup_left] ones. *)
Lemma worker_run_log (ticks : list tick) :
  forall s,
    series_all (worker_run address s ticks)
    = series_all s
      ++ skipn (Z.to_nat (_warmup_left s)) (readings (_last_a_int s) ticks)
    /\ _warmup_left (worker_run address s ticks)
       = counter_after (_warmup_left s)
           (List.length (readings (_last_a_int s) ticks)).
Proof.
  unfold worker_run.
  induction ticks as [|i rest IH]; intros s.
  - simpl. rewrite skipn_nil, app_nil_r. unfold counter_after.
    destruct (Z.leb_spec (_warmup_left s) 0); split; try reflexivity; lia.
  - cbn [fold_left readings].
    destruct (IH (worker_step address s i)) as [IHs IHw].
    rewrite IHs, IHw, worker_step_last. clear IHs IHw.
    destruct (read_value (_last_a_int s) (raw i)) as [[a|] last] eqn:R;
      cbn [snd].
    + destruct (Z.leb_spec (_warmup_left s) 0) as [Hw|Hw].
      * destruct (worker_step_retained s i a) as [E1 E2];
          [rewrite R; reflexivity|exact Hw|].
        rewrite E1, E2, <- app_assoc.
        replace (Z.to_nat (_warmup_left s)) with 0%nat by lia.
        cbn [skipn app]. split; [reflexivity|].
        unfold counter_after.
        destruct (Z.leb_spec (_warmup_left s) 0); [reflexivity|lia].
      * destruct (worker_step_warmup s i a) as [E1 [E2 _]];
          [rewrite R; reflexivity|lia|].
        rewrite E1, E2.
        replace (Z.to_nat (_warmup_left s))
          with (S (Z.to_nat (_warmup_left s - 1))) by lia.
        cbn [skipn]. split; [reflexivity|].
        unfold counter_after. cbn [List.length].
        destruct (Z.leb_spec (_warmup_left s - 1) 0);
          destruct (Z.leb_spec (_warmup_left s) 0); lia.
    + destruct (worker_step_absent s i) as [E1 [E2 _]];
        [rewrite R; reflexivity|].
      rewrite E1, E2. split; reflexivity.
Qed.

End Loop.

(** C3. A run started by [on_start] with threshold [N = _warmup_to_skip]
    logs exactly the readings that follow the first [N] readings handed over
    by the conversion, stamps and values unmodified, and leaves the counter
    at [N] minus the number of readings, not below zero.  Step by step: a
    reading that finds the counter positive decrements it and is not logged;
    a reading that finds it at zero is appended as it is and the counter
    stays.  With threshold 3 the log is the readings from the fourth on. *)
Theorem C3_warmup_gate :
  (forall s mono address ticks, worker_alive s = false ->
     series_all (Sampler.worker_run address (Sampler.on_start s mono) ticks)
     = skipn (Z.to_nat (_warmup_to_skip s)) (Sampler.readings None ticks)
     /\ _warmup_left
          (Sampler.worker_run address (Sampler.on_start s mono) ticks)
        = counter_after (_warmup_to_skip s)
            (List.length (Sampler.readings None ticks)))
  /\ (forall address s i a,
        fst (Sampler.read_value (_last_a_int s) (raw i)) = Some a ->
        _warmup_left s > 0 ->
        series_all (Sampler.worker_step address s i) = series_all s
        /\ _warmup_left (Sampler.worker_step address s i)
           = _warmup_left s - 1)
  /\ (forall address s i a,
        fst (Sampler.read_value (_last_a_int s) (raw i)) = Some a ->
        _warmup_left s <= 0 ->
        series_all (Sampler.worker_step address s i)
        = series_all s ++ [(ts i, a)]
        /\ _warmup_left (Sampler.worker_step address s i) = _warmup_left s)
  /\ (forall s mono address ticks, worker_alive s = false ->
        _warmup_to_skip s = 3 ->
        series_all (Sampler.worker_run address (Sampler.on_start s mono) ticks)
        = skipn 3 (Sampler.readings None ticks)).
Proof.
  assert (R : forall s mono address ticks, worker_alive s = false ->
     series_all (Sampler.worker_run address (Sampler.on_start s mono) ticks)
     = skipn (Z.to_nat (_warmup_to_skip s)) (Sampler.readings None ticks)
     /\ _warmup_left
          (Sampler.worker_run address (Sampler.on_start s mono) ticks)
        = counter_after (_warmup_to_skip s)
            (List.length (Sampler.readings None ticks))).
  { intros s mono address ticks H.
    destruct (worker_run_log address ticks (Sampler.on_start s mono))
      as [E1 E2].
    rewrite E1, E2. unfold Sampler.on_start. rewrite H. simpl. auto. }
  split; [exact R|]. split; [|split].
  - intros address s i a H1 H2.
    destruct (worker_step_warmup address s i a H1 H2) as [E1 [E2 _]]. auto.
  - intros address s i a H1 H2.
    exact (worker_step_retained address s i a H1 H2).
  - intros s mono address ticks H1 H2.
    destruct (R s mono address ticks H1) as [E _]. rewrite E, H2.
    reflexivity.
Qed.

Lemma C3_warmup_gate_witness :
  series_all
    (Sampler.worker_run 0
       (Sampler.on_start (with_warmup_to_skip Sampler.init 3) 0)
       (ticks_of [8639; 9055; 9472; 9055; 8639] 0))
  = skipn 3
      (Sampler.readings None (ticks_of [8639; 9055; 9472; 9055; 8639] 0))
  /\ series_all
       (Sampler.worker_run 0
          (Sampler.on_start (with_warmup_to_skip Sampler.init 3) 0)
          (ticks_of [8639; 9055; 9472; 9055; 8639] 0))
     = [(30, 6); (40, 5)].
Proof.
  split.
  - exact (proj2 (proj2 (proj2 C3_warmup_gate))
             (with_warmup_to_skip Sampler.init 3) 0 0
             (ticks_of [8639; 9055; 9472; 9055; 8639] 0) eq_refl eq_refl).
  - vm_compute. reflexivity.
Defined.



(* ================================================================== *)
(** * Range of the values and the anti-spike baseline *)
(* ================================================================== *)

Lemma antispike_range (last : option Z) (a : Z) :
  last_in_range last -> in_range a ->
  in_range (fst (Converter.antispike last a))
  /\ snd (Converter.antispike last a) = Some (fst (Converter.antispike last a)).
Proof.
  intros Hl Ha. unfold Converter.antispike.
  destruct last as [l|]; [|split; [exact Ha|reflexivity]].
  destruct (Z.abs (a - l) >? 10); split; try reflexivity; simpl;
    [apply Hl; reflexivity|exact Ha].
Qed.

(** A reading that is present is the new anti-spike baseline. *)
Lemma read_value_present (last : option Z) (r : option (list Z)) (a : Z) :
  fst (Sampler.read_value last r) = Some a ->
  snd (Sampler.read_value last r) = Some a.
Proof.
  unfold Sampler.read_value, Converter._code_to_A_int.
  destruct r as [[|c rest]|]; try discriminate.
  destruct (Converter.code_to_A c) as [A|]; [|discriminate].
  unfold Converter.antispike. destruct last as [l|]; [|exact (fun H => H)].
  destruct (Z.abs (A - l) >? 10); exact (fun H => H).
Qed.

Lemma read_value_range (last : option Z) (r : option (list Z)) :
  last_in_range last ->
  last_in_range (fst (Sampler.read_value last r))
  /\ last_in_range (snd (Sampler.read_value last r)).
Proof.
  intros Hl. unfold Sampler.read_value, Converter._code_to_A_int.
  destruct r as [[|c rest]|]; try (split; [discriminate|exact Hl]).
  destruct (Converter.code_to_A c) as [A|] eqn:E;
    [|split; [discriminate|exact Hl]].
  destruct (antispike_range last A Hl (code_to_A_range c A E)) as [H1 H2].
  destruct (Converter.antispike last A) as [v last']. simpl in *.
  subst last'. split; intros w [= <-]; exact H1.
Qed.

Lemma process_queue_item_keeps (s : App) (item : queue_item) :
  series_all (Sampler._process_queue_item s item) = series_all s
  /\ _last_a_int (Sampler._process_queue_item s item) = _last_a_int s
  /\ data_queue (Sampler._process_queue_item s item) = data_queue s
  /\ trend_buffer_max (Sampler._process_queue_item s item) = trend_buffer_max s
  /\ window_seconds (Sampler._process_queue_item s item) = window_seconds s
  /\ points_per_second (Sampler._process_queue_item s item)
     = points_per_second s.
Proof. destruct item; simpl; auto 10. Qed.

Lemma pump_keeps (q : list queue_item) :
  forall s,
    series_all (fold_left Sampler._process_queue_item q s) = series_all s
    /\ _last_a_int (fold_left Sampler._process_queue_item q s) = _last_a_int s
    /\ data_queue (fold_left Sampler._process_queue_item q s) = data_queue s
    /\ trend_buffer_max (fold_left Sampler._process_queue_item q s)
       = trend_buffer_max s
    /\ window_seconds (fold_left Sampler._process_queue_item q s)
       = window_seconds s
    /\ points_per_second (fold_left Sampler._process_queue_item q s)
       = points_per_second s.
Proof.
  induction q as [|item q IH]; intros s; [simpl; auto 10|].
  cbn [fold_left].
  destruct (IH (Sampler._process_queue_item s item))
    as (E1 & E2 & E3 & E4 & E5 & E6).
  destruct (process_queue_item_keeps s item)
    as (F1 & F2 & F3 & F4 & F5 & F6).
  rewrite E1, E2, E3, E4, E5, E6. auto 10.
Qed.

Lemma worker_step_values (address : Z) (s : App) (i : tick) :
  values_in_range s -> values_in_range (Sampler.worker_step address s i).
Proof.
  intros (Hs & Hl & Hq).
  destruct (read_value_range (_last_a_int s) (raw i) Hl) as [Ha Hl'].
  unfold Sampler.worker_step.
  destruct (Sampler.read_value (_last_a_int s) (raw i)) as [[a|] last];
    cbn [fst snd] in Ha, Hl'.
  - assert (Hr : in_range a) by (apply Ha; reflexivity).
    destruct (_warmup_left s >? 0); [split; [|split]; assumption|].
    destruct (mono_test i >=? next_ui_push s); (split; [|split]);
      cbn [series_all _last_a_int data_queue]; try assumption.
    + intros p Hp. apply in_app_or in Hp as [Hp|[<-|[]]]; [auto|exact Hr].
    + intros t v Hv. apply in_app_or in Hv as [Hv|[[= _ <-]|[]]];
        [exact (Hq t v Hv)|exact Hr].
    + intros p Hp. apply in_app_or in Hp as [Hp|[<-|[]]]; [auto|exact Hr].
  - split; [|split]; assumption.
Qed.

Lemma set_trend_window_values (s : App) (seconds : Z) :
  values_in_range s -> values_in_range (Sampler._set_trend_window s seconds).
Proof. exact (fun H => H). Qed.

Lemma reachable_values (s : App) : reachable s -> values_in_range s.
Proof.
  induction 1 as [|s mono _ IH|s _ IH|s address i _ IH _ _|s _ IH
                  |s label _ IH|s _ IH].
  - split; [|split]; [intros p []|discriminate|intros t v []].
  - unfold Sampler.on_start. destruct (worker_alive s); [exact IH|].
    destruct IH as (_ & _ & Hq).
    split; [|split]; [intros p []|discriminate|exact Hq].
  - unfold Sampler.on_stop. destruct (worker_alive s); [|exact IH].
    destruct IH as (Hs & Hl & Hq). split; [|split]; try assumption.
    intros t v Hv. cbn [data_queue] in Hv.
    apply in_app_or in Hv as [Hv|[Hv|[]]]; [exact (Hq t v Hv)|discriminate].
  - apply worker_step_values, IH.
  - destruct IH as (Hs & Hl & Hq). unfold Sampler._schedule_queue_pump.
    match goal with |- values_in_range (fold_left _ ?q ?s0) =>
      destruct (pump_keeps q s0) as (E1 & E2 & E3 & _) end.
    unfold values_in_range. rewrite E1, E2, E3.
    split; [|split]; [exact Hs|exact Hl|intros t v []].
  - unfold Sampler._on_trend_window_change.
    repeat match goal with |- context [if ?b then _ else _] =>
      destruct b; [apply set_trend_window_values, IH|] end.
    exact IH.
  - destruct IH as (_ & _ & Hq).
    split; [|split]; [intros p []|discriminate|exact Hq].
Qed.

Lemma worker_step_alive (address : Z) (s : App) (i : tick) :
  worker_alive (Sampler.worker_step address s i) = worker_alive s.
Proof.
  unfold Sampler.worker_step.
  destruct (Sampler.read_value (_last_a_int s) (raw i)) as [[a|] last];
    [|reflexivity].
  destruct (_warmup_left s >? 0); [reflexivity|].
  destruct (mono_test i >=? next_ui_push s); reflexivity.
Qed.

Lemma reachable_run (address : Z) (ticks : list tick) :
  0 <= address < 8 ->
  forall s, reachable s -> worker_alive s = true ->
            reachable (Sampler.worker_run address s ticks).
Proof.
  intros Ha. unfold Sampler.worker_run.
  induction ticks as [|i rest IH]; intros s Hs Hw; [exact Hs|].
  cbn [fold_left]. apply IH.
  - apply reach_step; assumption.
  - rewrite worker_step_alive. exact Hw.
Qed.

Lemma warm_state_reachable : reachable warm_state.
Proof.
  apply reachable_run; [lia| |reflexivity].
  apply reach_start, reach_init.
Qed.

(** C9. In every state the application reaches, every value of the
    full-history log lies in 0..63, so does the last accepted value when
    there is one, and so does every value the pipeline yields next, be it
    the converted candidate or the value the anti-spike stage puts in its
    place. *)
Theorem C9_values_in_range (s : App) :
  reachable s ->
  (forall p, In p (series_all s) -> 0 <= snd p <= 63)
  /\ (forall v, _last_a_int s = Some v -> 0 <= v <= 63)
  /\ (forall r v,
        fst (Sampler.read_value (_last_a_int s) r) = Some v -> 0 <= v <= 63)
  /\ (forall t v, In (Values t (Some v)) (data_queue s) -> 0 <= v <= 63).
Proof.
  intros H. destruct (reachable_values s H) as (Hs & Hl & Hq).
  split; [exact Hs|]. split; [exact Hl|]. split; [|exact Hq].
  intros r v Hv. destruct (read_value_range (_last_a_int s) r Hl) as [Ha _].
  exact (Ha v Hv).
Qed.

Lemma C9_values_in_range_witness :
  series_all warm_state = [(100, 5); (110, 5)]
  /\ (forall p, In p (series_all warm_state) -> 0 <= snd p <= 63)
  /\ (forall v, _last_a_int warm_state = Some v -> 0 <= v <= 63).
Proof.
  split; [vm_compute; reflexivity|].
  destruct (C9_values_in_range warm_state warm_state_reachable)
    as (H1 & H2 & _).
  exact (conj H1 H2).
Defined.

(* ================================================================== *)
(** * Warm-up readings and the anti-spike baseline *)
(* ================================================================== *)

(** C10. The anti-spike stage runs inside the conversion, before the
    warm-up counter is looked at: every iteration leaves in [_last_a_int]
    what [_code_to_A_int] left there, so a reading dropped by the warm-up
    is the baseline of the next one.  When the last warm-up reading gave
    [l] and the next candidate is more than 10 A away from [l], the first
    point logged carries [l], not the candidate. *)
Theorem C10_warmup_feeds_antispike :
  (forall address s i,
     _last_a_int (Sampler.worker_step address s i)
     = snd (Sampler.read_value (_last_a_int s) (raw i)))
  /\ (forall address s i l,
        fst (Sampler.read_value (_last_a_int s) (raw i)) = Some l ->
        _warmup_left s > 0 ->
        series_all (Sampler.worker_step address s i) = series_all s
        /\ _last_a_int (Sampler.worker_step address s i) = Some l)
  /\ (forall address s i1 i2 l c rest a,
        _warmup_left s = 1 ->
        fst (Sampler.read_value (_last_a_int s) (raw i1)) = Some l ->
        raw i2 = Some (c :: rest) ->
        Converter.code_to_A c = Some a ->
        Z.abs (a - l) > 10 ->
        series_all
          (Sampler.worker_step address (Sampler.worker_step address s i1) i2)
        = series_all s ++ [(ts i2, l)]).
Proof.
  split; [exact worker_step_last|]. split.
  - intros address s i l H Hw.
    destruct (worker_step_warmup address s i l H Hw) as [E _].
    rewrite worker_step_last. split; [exact E|].
    apply read_value_present, H.
  - intros address s i1 i2 l c rest a Hw H1 H2 Ha Hd.
    destruct (worker_step_warmup address s i1 l H1) as (E1 & E2 & _);
      [lia|].
    pose proof (worker_step_last address s i1) as EL.
    rewrite (read_value_present _ _ _ H1) in EL.
    destruct (worker_step_retained address
                (Sampler.worker_step address s i1) i2 l) as [E _].
    + rewrite EL, H2. unfold Sampler.read_value.
      rewrite (code_to_A_int_stages (Some l) c a Ha).
      rewrite (antispike_reject l a Hd). reflexivity.
    + lia.
    + rewrite E, E1. reflexivity.
Qed.

Lemma C10_warmup_feeds_antispike_witness :
  series_all
    (Sampler.worker_run 0
       (Sampler.on_start (with_warmup_to_skip Sampler.init 1) 0)
       [tick_of 8639 0 0; tick_of 23211 10 10])
  = [(10, 5)].
Proof.
  exact (proj2 (proj2 C10_warmup_feeds_antispike) 0
           (Sampler.on_start (with_warmup_to_skip Sampler.init 1) 0)
           (tick_of 8639 0 0) (tick_of 23211 10 10) 5 23211 [] 40
           eq_refl eq_refl eq_refl eq_refl eq_refl).
Defined.

(* ================================================================== *)
(** * The rolling trend buffer *)
(* ================================================================== *)

Section Rolling.

Context {A : Type}.

Lemma slice_from_neg (cap : Z) (l : list A) :
  0 < cap -> Py.slice_from (- cap) l = lastn cap l.
Proof.
  intros H. unfold Py.slice_from, lastn.
  destruct (Z.ltb_spec (- cap) 0); [|lia].
  f_equal. lia.
Qed.

Lemma lastn_short (cap : Z) (l : list A) :
  Z.of_nat (List.length l) <= cap -> lastn cap l = l.
Proof.
  intros H. unfold lastn.
  replace (List.length l - Z.to_nat cap)%nat with 0%nat by lia.
  reflexivity.
Qed.

Lemma lastn_length (cap : Z) (l : list A) :
  0 <= cap -> Z.of_nat (List.length (lastn cap l)) <= cap.
Proof. intros H. unfold lastn. rewrite length_skipn. lia. Qed.

Lemma lastn_app_one (cap : Z) (l : list A) (x : A) :
  0 < cap -> lastn cap (lastn cap l ++ [x]) = lastn cap (l ++ [x]).
Proof.
  intros H. unfold lastn at 2.
  set (k := (List.length l - Z.to_nat cap)%nat).
  assert (E : skipn k l ++ [x] = skipn k (l ++ [x])).
  { rewrite skipn_app.
    replace (k - List.length l)%nat with 0%nat by lia. reflexivity. }
  rewrite E. unfold lastn. rewrite skipn_skipn. f_equal.
  rewrite length_skipn, last_length. lia.
Qed.

End Rolling.

Lemma trend_append_lastn (buf : list trend_point) (cap : Z) (x : trend_point) :
  0 < cap -> Sampler.trend_append buf cap x = lastn cap (buf ++ [x]).
Proof.
  intros H. unfold Sampler.trend_append.
  destruct (Z.gtb_spec (Z.of_nat (List.length (buf ++ [x]))) cap).
  - apply slice_from_neg, H.
  - symmetry. apply lastn_short. assumption.
Qed.

Lemma trend_append_bounded (buf : list trend_point) (cap : Z) (x : trend_point) :
  0 < cap -> Z.of_nat (List.length (Sampler.trend_append buf cap x)) <= cap.
Proof.
  intros H. rewrite trend_append_lastn by exact H. apply lastn_length. lia.
Qed.

(** Appending one point after the other keeps the most recent ones. *)
Lemma trend_append_all (cap : Z) (xs : list trend_point) :
  0 < cap ->
  forall l,
    fold_left (fun b x => Sampler.trend_append b cap x) xs (lastn cap l)
    = lastn cap (l ++ xs).
Proof.
  intros H. induction xs as [|x xs IH]; intros l.
  - rewrite app_nil_r. reflexivity.
  - cbn [fold_left].
    rewrite trend_append_lastn, lastn_app_one, IH, <- app_assoc by exact H.
    reflexivity.
Qed.

Lemma trend_append_from_empty (cap : Z) (xs : list trend_point) :
  0 < cap ->
  fold_left (fun b x => Sampler.trend_append b cap x) xs [] = lastn cap xs.
Proof. intros H. exact (trend_append_all cap xs H []). Qed.

Lemma capacity_ok_pos (s : App) : capacity_ok s -> 0 < trend_buffer_max s.
Proof.
  intros (E & Hp & Hw). rewrite E, Hp. simpl in Hw.
  destruct Hw as [<-|[<-|[<-|[<-|[]]]]]; lia.
Qed.

Lemma worker_step_capacity (address : Z) (s : App) (i : tick) :
  trend_buffer_max (Sampler.worker_step address s i) = trend_buffer_max s
  /\ window_seconds (Sampler.worker_step address s i) = window_seconds s
  /\ points_per_second (Sampler.worker_step address s i)
     = points_per_second s.
Proof.
  unfold Sampler.worker_step.
  destruct (Sampler.read_value (_last_a_int s) (raw i)) as [[a|] last];
    [|auto].
  destruct (_warmup_left s >? 0); [auto|].
  destruct (mono_test i >=? next_ui_push s); auto.
Qed.

Lemma set_trend_window_capacity (s : App) (seconds : Z) :
  points_per_second s = 100 -> In seconds [10; 30; 60; 300] ->
  capacity_ok (Sampler._set_trend_window s seconds).
Proof. intros Hp Hs. split; [reflexivity|split; assumption]. Qed.

Lemma reachable_capacity (s : App) : reachable s -> capacity_ok s.
Proof.
  induction 1 as [|s mono _ IH|s _ IH|s address i _ IH _ _|s _ IH
                  |s label _ IH|s _ IH].
  - split; [reflexivity|]. split; [reflexivity|]. simpl. auto.
  - unfold Sampler.on_start. destruct (worker_alive s); exact IH.
  - unfold Sampler.on_stop. destruct (worker_alive s); exact IH.
  - destruct (worker_step_capacity address s i) as (E1 & E2 & E3).
    unfold capacity_ok. rewrite E1, E2, E3. exact IH.
  - unfold Sampler._schedule_queue_pump.
    match goal with |- capacity_ok (fold_left _ ?q ?s0) =>
      destruct (pump_keeps q s0) as (_ & _ & _ & E1 & E2 & E3) end.
    unfold capacity_ok. rewrite E1, E2, E3. exact IH.
  - destruct IH as (E & Hp & Hw). unfold Sampler._on_trend_window_change.
    repeat match goal with |- context [if ?b then _ else _] =>
      destruct b; [apply set_trend_window_capacity; simpl; auto|] end.
    split; [|split]; assumption.
  - exact IH.
Qed.

(** The trend buffer after an iteration of the loop: untouched, or the
    point of the iteration appended and the buffer trimmed. *)
Lemma worker_step_trend (address : Z) (s : App) (i : tick) :
  trend_buffer (Sampler.worker_step address s i) = trend_buffer s
  \/ exists a,
       trend_buffer (Sampler.worker_step address s i)
       = Sampler.trend_append (trend_buffer s) (trend_buffer_max s)
           (ts i, Sampler.line address (Some a)).
Proof.
  unfold Sampler.worker_step.
  destruct (Sampler.read_value (_last_a_int s) (raw i)) as [[a|] last];
    [|left; reflexivity].
  destruct (_warmup_left s >? 0); [left; reflexivity|].
  destruct (mono_test i >=? next_ui_push s); [left; reflexivity|].
  right. exists a. reflexivity.
Qed.

(** C7. In every state the application reaches the capacity is
    [window_seconds * points_per_second]; both places that append to the
    trend buffer leave it no longer than the capacity and holding the most
    recent points of the buffer with the new point appended (the oldest
    dropped first).  Appending points one by one to an empty buffer keeps
    the most recent [capacity] of them: with capacity 1000 and 1001 points,
    all but the first. *)
Theorem C7_trend_buffer_bounded (s : App) :
  reachable s ->
  trend_buffer_max s = window_seconds s * points_per_second s
  /\ (forall t a,
        Z.of_nat (List.length
                    (trend_buffer (Sampler._process_queue_item s (Values t a))))
        <= trend_buffer_max s
        /\ trend_buffer (Sampler._process_queue_item s (Values t a))
           = lastn (trend_buffer_max s)
               (trend_buffer s
                ++ [(t, Sampler.line
                          (Z.max 1 (Z.min 8 (fast_channel_var s)) - 1) a)]))
  /\ (forall address i,
        trend_buffer (Sampler.worker_step address s i) = trend_buffer s
        \/ exists a,
             Z.of_nat (List.length
                         (trend_buffer (Sampler.worker_step address s i)))
             <= trend_buffer_max s
             /\ trend_buffer (Sampler.worker_step address s i)
                = lastn (trend_buffer_max s)
                    (trend_buffer s
                     ++ [(ts i, Sampler.line address (Some a))]))
  /\ (forall xs,
        fold_left (fun b x => Sampler.trend_append b (trend_buffer_max s) x)
          xs []
        = lastn (trend_buffer_max s) xs)
  /\ (forall xs, List.length xs = 1001%nat ->
        fold_left (fun b x => Sampler.trend_append b 1000 x) xs [] = tl xs
        /\ List.length (tl xs) = 1000%nat).
Proof.
  intros H. pose proof (reachable_capacity s H) as C.
  pose proof (capacity_ok_pos s C) as P.
  split; [exact (proj1 C)|]. split; [|split; [|split]].
  - intros t a. cbn [Sampler._process_queue_item Sampler.with_trend
                      trend_buffer].
    split; [apply trend_append_bounded, P|apply trend_append_lastn, P].
  - intros address i.
    destruct (worker_step_trend address s i) as [E|[a E]]; [left; exact E|].
    right. exists a. rewrite E.
    split; [apply trend_append_bounded, P|apply trend_append_lastn, P].
  - intros xs. apply trend_append_from_empty, P.
  - intros xs L. rewrite trend_append_from_empty by lia.
    unfold lastn. rewrite L.
    replace (1001 - Z.to_nat 1000)%nat with 1%nat by lia.
    split; [destruct xs; reflexivity|]. rewrite length_tl, L. reflexivity.
Qed.

Lemma C7_trend_buffer_bounded_witness :
  trend_buffer_max warm_state = 60 * 100
  /\ trend_buffer (Sampler._process_queue_item warm_state (Values 100 (Some 5)))
     = [(110, [Some 5; None; None; None; None; None; None; None]);
        (100, [Some 5; None; None; None; None; None; None; None])].
Proof.
  destruct (C7_trend_buffer_bounded warm_state warm_state_reachable)
    as (H1 & H2 & _).
  split; [exact H1|]. destruct (H2 100 (Some 5)) as [_ E]. exact E.
Defined.

(* ================================================================== *)
(** * Changing the trend window *)
(* ================================================================== *)





(* ================================================================== *)
(** * The change selection *)
(* ================================================================== *)

Section ChangesFacts.

Import Changes.

(** The last element of a non-empty list does not depend on the default. *)
Lemma last_cons_default {A : Type} (x : A) (l : list A) (d d' : A) :
  last (x :: l) d = last (x :: l) d'.
Proof.
  revert x. induction l as [|y l IH]; intros x; [reflexivity|].
  change (last (y :: l) d = last (y :: l) d'). apply IH.
Qed.

Lemma last_cons_self {A : Type} (x : A) (l : list A) (d : A) :
  last (x :: l) d = last l x.
Proof.
  revert x d. induction l as [|y l IH]; intros x d; [reflexivity|].
  change (last (y :: l) d = last (y :: l) x). apply last_cons_default.
Qed.

(** The loop, started on a non-empty [changes] whose last value is [v],
    appends the transitions. *)
Lemma scan_from (rows : list point) :
  forall acc v,
    fold_left scan_step rows (acc, Some v)
    = (acc ++ retain_after v rows,
       Some (snd (last (retain_after v rows) (0, v)))).
Proof.
  induction rows as [|p r IH]; intros acc v.
  - simpl. rewrite app_nil_r. reflexivity.
  - cbn [fold_left scan_step retain_after].
    destruct (snd p =? v) eqn:E.
    + apply IH.
    + rewrite IH, <- app_assoc. cbn [app].
      rewrite (last_cons_self p _ (0, v)).
      rewrite (last_cons_default p nil (0, snd p) p) at 1.
      destruct (retain_after (snd p) r) as [|q l]; [reflexivity|].
      rewrite (last_cons_default q l (0, snd p) p). reflexivity.
Qed.

Lemma scan_retained (rows : list point) : fst (scan rows) = retained rows.
Proof.
  destruct rows as [|p r]; [reflexivity|].
  unfold scan. cbn [fold_left scan_step app].
  rewrite scan_from. reflexivity.
Qed.

Lemma compress_refines (rows : list point) :
  compress rows = compress_spec rows.
Proof.
  unfold compress. rewrite scan_retained.
  destruct rows as [|p r]; reflexivity.
Qed.

Lemma compress_nil_iff (rows : list point) : compress rows = [] <-> rows = [].
Proof.
  rewrite compress_refines. split; [|intros ->; reflexivity].
  destruct rows as [|p r]; [reflexivity|].
  unfold compress_spec. cbn [retained].
  destruct (_ =? _); [discriminate|].
  intros H. apply (f_equal (@List.length point)) in H. simpl in H. lia.
Qed.

Lemma last_default_snd (l : list point) (d d' : point) :
  snd d = snd d' -> snd (last l d) = snd (last l d').
Proof.
  intros H. destruct l as [|x l]; [exact H|].
  apply f_equal, last_cons_default.
Qed.

(** The value last retained is the value of the last row. *)
Lemma retain_after_last_value (r : list point) :
  forall t v, snd (last (retain_after v r) (t, v)) = snd (last r (t, v)).
Proof.
  induction r as [|p r IH]; intros t v; [reflexivity|].
  cbn [retain_after]. destruct (snd p =? v) eqn:E.
  - apply Z.eqb_eq in E. rewrite IH, (last_cons_self p r).
    apply last_default_snd. symmetry. exact E.
  - rewrite !last_cons_self. destruct p as [tp vp]. apply IH.
Qed.

Lemma kept_last_value (p : point) (r : list point) :
  snd (last (p :: retain_after (snd p) r) p) = snd (last (p :: r) p).
Proof.
  rewrite !last_cons_self. destruct p as [t v].
  apply retain_after_last_value.
Qed.

(** Rows already selected are all retained. *)
Lemma retain_after_idem (r : list point) :
  forall v, retain_after v (retain_after v r) = retain_after v r.
Proof.
  induction r as [|p r IH]; intros v; [reflexivity|].
  cbn [retain_after]. destruct (snd p =? v) eqn:E; [apply IH|].
  cbn [retain_after]. rewrite E, IH. reflexivity.
Qed.

Lemma retain_after_app (l1 l2 : list point) :
  forall v,
    retain_after v (l1 ++ l2)
    = retain_after v l1
      ++ retain_after (snd (last (retain_after v l1) (0, v))) l2.
Proof.
  induction l1 as [|p l1 IH]; intros v; [reflexivity|].
  cbn [app retain_after]. destruct (snd p =? v) eqn:E; [apply IH|].
  cbn [app]. rewrite IH, (last_cons_self p).
  rewrite (last_default_snd _ p (0, snd p) eq_refl). reflexivity.
Qed.

Lemma compress_spec_cons (p : point) (r : list point) :
  compress_spec (p :: r)
  = if fst (last (p :: retain_after (snd p) r) p) =? fst (last (p :: r) p)
    then p :: retain_after (snd p) r
    else (p :: retain_after (snd p) r) ++ [last (p :: r) p].
Proof. reflexivity. Qed.

(** ** [sorted] on a log that is already in stamp order *)

Lemma insert_by_ts_last (p : point) (acc : list point) :
  Forall (fun q => fst q <= fst p) acc -> insert_by_ts p acc = acc ++ [p].
Proof.
  induction 1 as [|q acc Hq _ IH]; [reflexivity|].
  cbn [insert_by_ts app].
  destruct (Z.leb_spec (fst q) (fst p)); [rewrite IH; reflexivity|lia].
Qed.

Lemma ordered_prefix_le (acc l : list point) (p : point) :
  StronglySorted ts_le (acc ++ p :: l) ->
  Forall (fun q => fst q <= fst p) acc.
Proof.
  induction acc as [|q acc IH]; intros H; [constructor|].
  cbn [app] in H. apply StronglySorted_inv in H as [Hs Hq].
  constructor; [|exact (IH Hs)].
  rewrite Forall_forall in Hq. apply Hq, in_elt.
Qed.

Lemma sorted_by_ts_ordered (l : list point) :
  StronglySorted ts_le l -> sorted_by_ts l = l.
Proof.
  unfold sorted_by_ts.
  assert (G : forall l acc, StronglySorted ts_le (acc ++ l) ->
              fold_left (fun a p => insert_by_ts p a) l acc = acc ++ l).
  { clear l. induction l as [|p l IH]; intros acc H.
    - rewrite app_nil_r. reflexivity.
    - cbn [fold_left].
      rewrite (insert_by_ts_last p acc (ordered_prefix_le acc l p H)).
      rewrite IH; rewrite <- app_assoc; [reflexivity|exact H]. }
  intros H. exact (G l [] H).
Qed.

End ChangesFacts.

(** C5. On every history the selection keeps the first point, then exactly
    the points whose value differs from the value last kept, and appends the
    final point of the input exactly when the stamp last kept is not the
    input's last stamp; the result is empty only for an empty input.  With
    distinct stamps, [(t0,5),(t1,5),(t2,7),(t3,7),(t4,7)] gives
    [(t0,5),(t2,7),(t4,7)] and [(t0,9),(t1,9),(t2,9)] gives
    [(t0,9),(t2,9)]. *)
Theorem C5_change_compressor :
  (forall rows, Changes.compress rows = Changes.compress_spec rows)
  /\ (forall series, StronglySorted Changes.ts_le series ->
        Changes.changes_of series = Changes.compress_spec series)
  /\ (forall rows, fst (Changes.scan rows) = Changes.retained rows)
  /\ (forall rows, Changes.compress rows = [] <-> rows = [])
  /\ (forall t0 t1 t2 t3 t4, t2 <> t4 ->
        Changes.compress [(t0, 5); (t1, 5); (t2, 7); (t3, 7); (t4, 7)]
        = [(t0, 5); (t2, 7); (t4, 7)])
  /\ (forall t0 t1 t2, t0 <> t2 ->
        Changes.compress [(t0, 9); (t1, 9); (t2, 9)] = [(t0, 9); (t2, 9)]).
Proof.
  split; [exact compress_refines|].
  split.
  { intros series H. unfold Changes.changes_of.
    rewrite (sorted_by_ts_ordered series H). apply compress_refines. }
  split; [exact scan_retained|].
  split; [exact compress_nil_iff|].
  split.
  - intros t0 t1 t2 t3 t4 H. apply Z.eqb_neq in H.
    unfold Changes.compress. cbn. rewrite H. reflexivity.
  - intros t0 t1 t2 H. apply Z.eqb_neq in H.
    unfold Changes.compress. cbn. rewrite H. reflexivity.
Qed.

Lemma C5_change_compressor_witness :
  Changes.compress [(0, 5); (10, 5); (20, 7); (30, 7); (40, 7)]
  = [(0, 5); (20, 7); (40, 7)]
  /\ Changes.compress [(0, 9); (10, 9); (20, 9)] = [(0, 9); (20, 9)].
Proof.
  split.
  - apply (proj1 (proj2 (proj2 (proj2 (proj2 C5_change_compressor))))). lia.
  - apply (proj2 (proj2 (proj2 (proj2 (proj2 C5_change_compressor))))). lia.
Defined.

(** C6. The selection is idempotent: applied to its own output it returns
    that output. *)
Theorem C6_compress_idempotent (h : list point) :
  Changes.compress (Changes.compress h) = Changes.compress h.
Proof.
  rewrite !compress_refines.
  destruct h as [|p r]; [reflexivity|].
  rewrite (compress_spec_cons p r).
  pose proof (kept_last_value p r) as HV.
  set (K := Changes.retain_after (snd p) r) in *.
  assert (HK : Changes.retain_after (snd p) K = K) by apply retain_after_idem.
  destruct (fst (last (p :: K) p) =? fst (last (p :: r) p)) eqn:E.
  - rewrite compress_spec_cons, HK, Z.eqb_refl. reflexivity.
  - set (lr := last (p :: r) p) in *.
    cbn [app]. rewrite compress_spec_cons.
    rewrite retain_after_app, !HK.
    assert (W : snd lr = snd (last K (0, snd p))).
    { rewrite <- HV, last_cons_self.
      apply last_default_snd. reflexivity. }
    cbn [Changes.retain_after]. rewrite W, Z.eqb_refl, app_nil_r.
    rewrite (last_cons_self p (K ++ _)), last_last, E. reflexivity.
Qed.

(* ================================================================== *)
(** * The conversion in integers: band, monotonicity, end stops *)
(* ================================================================== *)

Lemma all_codes_closed : all_from agrees_closed (Z.to_nat 65536) 0 = true.
Proof. vm_compute. reflexivity. Qed.

Lemma code_to_A_closed_eq (raw : Z) :
  Converter.code_to_A raw = code_to_A_closed (Z.land raw 0xFFFF).
Proof.
  rewrite code_to_A_mask.
  pose proof (all_from_spec agrees_closed (Z.to_nat 65536) 0 all_codes_closed
                (Z.land raw 0xFFFF)) as G.
  rewrite Z2Nat.id in G by lia. specialize (G (mask_range raw)).
  unfold agrees_closed in G.
  destruct (Converter.code_to_A _) as [a|];
    destruct (code_to_A_closed _) as [b|]; try discriminate; [|reflexivity].
  apply Z.eqb_eq in G. congruence.
Qed.

Lemma code_to_A_closed_some (code a : Z) :
  code_to_A_closed code = Some a <->
  6230 <= code <= 49180 /\ code <> 0x7FFF
  /\ a = Z.max 0 (Z.min 63 ((3843 * code - 24400000) / 1600000)).
Proof.
  unfold code_to_A_closed.
  destruct (Z.ltb_spec code 6230); destruct (Z.ltb_spec 49180 code);
    destruct (Z.eqb_spec code 0x7FFF); cbn [orb];
    (split; [intros E|intros (E1 & E2 & E3)]); try discriminate; try lia.
  - injection E as <-. repeat split; try lia; try assumption.
  - subst a. reflexivity.
Qed.

(** X1. The conversion of a register is an integer computation: the code
    [raw & 0xFFFF] is accepted when it lies in 6230..49180 and is not
    0x7FFF, and then yields [floor((3843 * code - 24400000) / 1600000)]
    clipped to 0..63. *)
Theorem X1_conversion_closed_form (raw : Z) :
  Converter.code_to_A raw
  = if ((Z.land raw 0xFFFF <? 6230) || (49180 <? Z.land raw 0xFFFF)
        || (Z.land raw 0xFFFF =? 0x7FFF))%bool
    then None
    else Some (Z.max 0 (Z.min 63
                 ((3843 * Z.land raw 0xFFFF - 24400000) / 1600000))).
Proof. rewrite code_to_A_closed_eq. reflexivity. Qed.

(** X2. A 16-bit code is accepted exactly when it lies in 6230..49180 and
    is not 0x7FFF.  Of the four garbage codes only 0x7FFF removes a code
    of the accepted band (its neighbours read 63 A); 0x0000, 0xFFFE and
    0xFFFF are outside the band anyway. *)
Theorem X2_accepted_codes :
  (forall code, 0 <= code < 65536 ->
     (Converter.code_to_A code <> None
      <-> 6230 <= code <= 49180 /\ code <> 0x7FFF))
  /\ Converter.code_to_A 0x7FFE = Some 63
  /\ Converter.code_to_A 0x8000 = Some 63
  /\ (forall code, In code [0x0000; 0xFFFE; 0xFFFF] ->
        ~ 6230 <= code <= 49180).
Proof.
  split; [|split; [|split]].
  - intros code Hc. rewrite code_to_A_closed_eq.
    change 0xFFFF with (Z.ones 16). rewrite Z.land_ones by lia.
    rewrite Z.mod_small by (change (2 ^ 16) with 65536; lia).
    split.
    + intros H. destruct (code_to_A_closed code) as [a|] eqn:E;
        [|contradiction].
      apply code_to_A_closed_some in E. tauto.
    + intros [H1 H2].
      rewrite (proj2 (code_to_A_closed_some code _)
                 (conj H1 (conj H2 eq_refl))).
      discriminate.
  - vm_compute. reflexivity.
  - vm_compute. reflexivity.
  - intros code H. simpl in H. lia.
Qed.

Lemma X2_accepted_codes_witness :
  Converter.code_to_A 6230 <> None /\ ~ Converter.code_to_A 6229 <> None.
Proof.
  split.
  - apply (proj1 X2_accepted_codes 6230); lia.
  - intros H. apply (proj1 X2_accepted_codes 6229) in H; lia.
Defined.

(** X3. The conversion never decreases: of two accepted codes the larger
    one yields at least the amperes of the smaller one. *)
Theorem X3_conversion_monotone (raw raw' a a' : Z) :
  Z.land raw 0xFFFF <= Z.land raw' 0xFFFF ->
  Converter.code_to_A raw = Some a ->
  Converter.code_to_A raw' = Some a' ->
  a <= a'.
Proof.
  rewrite !code_to_A_closed_eq. intros Hle H H'.
  apply code_to_A_closed_some in H as (_ & _ & ->).
  apply code_to_A_closed_some in H' as (_ & _ & ->).
  assert ((3843 * Z.land raw 0xFFFF - 24400000) / 1600000
          <= (3843 * Z.land raw' 0xFFFF - 24400000) / 1600000)
    by (apply Z.div_le_mono; lia).
  lia.
Qed.

Lemma X3_conversion_monotone_witness : 5 <= 40.
Proof.
  apply (X3_conversion_monotone 8639 23211 5 40);
    vm_compute; first [reflexivity | discriminate].
Defined.

(** X4. The end stops of the scale: an accepted code yields 0 A exactly
    when it is at most 6765, and 63 A exactly when it is at least 32579. *)
Theorem X4_conversion_end_stops (raw a : Z) :
  Converter.code_to_A raw = Some a ->
  (a = 0 <-> Z.land raw 0xFFFF <= 6765)
  /\ (a = 63 <-> 32579 <= Z.land raw 0xFFFF).
Proof.
  rewrite code_to_A_closed_eq. intros H.
  apply code_to_A_closed_some in H as (Hb & _ & ->).
  set (c := Z.land raw 0xFFFF) in *.
  pose proof (Z.div_mod (3843 * c - 24400000) 1600000 ltac:(lia)) as D.
  pose proof (Z.mod_pos_bound (3843 * c - 24400000) 1600000 ltac:(lia)) as B.
  set (q := (3843 * c - 24400000) / 1600000) in *.
  split; split; intros; lia.
Qed.

Lemma X4_conversion_end_stops_witness :
  (0 = 0 <-> Z.land 6765 0xFFFF <= 6765)
  /\ (0 = 63 <-> 32579 <= Z.land 6765 0xFFFF).
Proof.
  apply (X4_conversion_end_stops 6765 0). vm_compute. reflexivity.
Defined.

(* ================================================================== *)
(** * The loop: failed reads, stale baseline, shape of the log *)
(* ================================================================== *)

Lemma read_value_cases (last : option Z) (r : option (list Z)) :
  (Sampler.read_value last r = (None, last)
   /\ (r = None \/ r = Some []
       \/ exists c rest, r = Some (c :: rest) /\ Converter.code_to_A c = None))
  \/ exists c rest a,
       r = Some (c :: rest) /\ Converter.code_to_A c = Some a
       /\ Sampler.read_value last r
          = (Some (fst (Converter.antispike last a)),
             Some (fst (Converter.antispike last a))).
Proof.
  destruct r as [[|c rest]|]; [left; auto| |left; auto].
  destruct (Converter.code_to_A c) as [a|] eqn:E.
  - right. exists c, rest, a. split; [reflexivity|]. split; [exact E|].
    unfold Sampler.read_value. rewrite (code_to_A_int_stages last c a E).
    f_equal. unfold Converter.antispike.
    destruct last as [l|]; [|reflexivity].
    destruct (Z.abs (a - l) >? 10); reflexivity.
  - left. split.
    + unfold Sampler.read_value, Converter._code_to_A_int. rewrite E.
      reflexivity.
    + right. right. exists c, rest. auto.
Qed.

Lemma worker_step_no_value (address : Z) (s : App) (i : tick) :
  (raw i = None \/ raw i = Some []
   \/ exists c rest, raw i = Some (c :: rest)
                     /\ Converter.code_to_A c = None) ->
  Sampler.worker_step address s i = s.
Proof.
  intros H. unfold Sampler.worker_step.
  assert (E : Sampler.read_value (_last_a_int s) (raw i)
              = (None, _last_a_int s)).
  { destruct H as [->|[->|(c & rest & -> & Hc)]]; try reflexivity.
    unfold Sampler.read_value, Converter._code_to_A_int. rewrite Hc.
    reflexivity. }
  rewrite E. destruct s. reflexivity.
Qed.

(** X10. A tick without a usable value leaves the whole state as it was:
    a failed read, an empty answer or a rejected code changes neither the
    log, the trend buffer and the queue nor the warm-up counter and the
    anti-spike baseline. *)
Theorem X10_no_value_no_change (address : Z) (s : App) (i : tick) :
  (raw i = None \/ raw i = Some []
   \/ exists c rest, raw i = Some (c :: rest)
                     /\ Converter.code_to_A c = None) ->
  Sampler.worker_step address s i = s.
Proof. apply worker_step_no_value. Qed.

Lemma X10_no_value_no_change_witness :
  Sampler.worker_step 0 warm_state (mkTick (Some [0x7FFF]) 120 120 120)
  = warm_state.
Proof.
  apply X10_no_value_no_change. right. right. exists 0x7FFF, [].
  split; [reflexivity|vm_compute; reflexivity].
Defined.

Section Stale.

Variable address : Z.
Variable l : Z.

Lemma far_step (s : App) (i : tick) :
  _last_a_int s = Some l ->
  (forall c rest a, raw i = Some (c :: rest) ->
                    Converter.code_to_A c = Some a -> Z.abs (a - l) > 10) ->
  _last_a_int (Sampler.worker_step address s i) = Some l
  /\ (series_all (Sampler.worker_step address s i) = series_all s
      \/ series_all (Sampler.worker_step address s i)
         = series_all s ++ [(ts i, l)]).
Proof.
  intros Hl Hfar. rewrite worker_step_last, Hl.
  destruct (read_value_cases (Some l) (raw i))
    as [[E _]|(c & rest & a & Hr & Ha & E)].
  - split; [rewrite E; reflexivity|]. left.
    apply (worker_step_absent address s i). rewrite Hl, E. reflexivity.
  - rewrite (antispike_reject l a (Hfar c rest a Hr Ha)) in E.
    cbn [fst] in E. split; [rewrite E; reflexivity|].
    destruct (Z.leb_spec (_warmup_left s) 0) as [Hw|Hw].
    + right. apply (worker_step_retained address s i l);
        [rewrite Hl, E; reflexivity|exact Hw].
    + left. apply (worker_step_warmup address s i l);
        [rewrite Hl, E; reflexivity|lia].
Qed.

End Stale.

(** X5. A baseline is never left by a jump: when the last accepted value
    is [l] and every candidate of a stretch of ticks is more than 10 A
    away from [l], the baseline is still [l] after the stretch and every
    point logged during it carries [l]. *)
Theorem X5_stale_baseline (address l : Z) (ticks : list tick) :
  all_far l ticks ->
  forall s, _last_a_int s = Some l ->
    _last_a_int (Sampler.worker_run address s ticks) = Some l
    /\ exists new,
         series_all (Sampler.worker_run address s ticks)
         = series_all s ++ new
         /\ Forall (fun p => snd p = l) new.
Proof.
  unfold Sampler.worker_run.
  induction ticks as [|i rest IH]; intros Hfar s Hl.
  - split; [exact Hl|]. exists []. rewrite app_nil_r. auto.
  - cbn [fold_left].
    destruct (far_step address l s i Hl) as [Hl' Hs].
    { intros c r a. apply Hfar. left. reflexivity. }
    destruct (IH (fun j c r a Hj => Hfar j c r a (or_intror Hj))
                 (Sampler.worker_step address s i) Hl')
      as [Hfin (new & En & Fn)].
    split; [exact Hfin|]. rewrite En.
    destruct Hs as [->| ->].
    + exists new. auto.
    + exists ((ts i, l) :: new). rewrite <- app_assoc. split; [reflexivity|].
      constructor; [reflexivity|exact Fn].
Qed.

Lemma X5_stale_baseline_witness :
  _last_a_int
    (Sampler.worker_run 0 warm_state (ticks_of [23211; 23211; 23211] 120))
  = Some 5.
Proof.
  refine (proj1 (X5_stale_baseline 0 5 (ticks_of [23211; 23211; 23211] 120)
                   _ warm_state eq_refl)).
  intros i c rest a Hi Hr Ha. simpl in Hi.
  destruct Hi as [<-|[<-|[<-|[]]]]; injection Hr as <- _;
    vm_compute in Ha; injection Ha as <-; reflexivity.
Defined.



(* ================================================================== *)
(** * The log: no jump, append only, in tick order *)
(* ================================================================== *)

Lemma snoc_cases {A : Type} (l : list A) :
  l = [] \/ exists init x, l = init ++ [x].
Proof.
  destruct l as [|a l]; [left; reflexivity|right].
  destruct (exists_last (l := a :: l) ltac:(discriminate)) as (init & x & E).
  exists init, x. exact E.
Qed.










Section Subseq.

Context {A : Type}.

Lemma subseq_refl (l : list A) : subseq l l.
Proof. induction l; constructor; assumption. Qed.

Lemma subseq_nil_l (l : list A) : subseq [] l.
Proof. induction l; constructor; assumption. Qed.

Lemma subseq_length (l1 l2 : list A) :
  subseq l1 l2 -> (List.length l1 <= List.length l2)%nat.
Proof. induction 1; simpl; lia. Qed.

Lemma subseq_In (l1 l2 : list A) (x : A) :
  subseq l1 l2 -> In x l1 -> In x l2.
Proof.
  induction 1 as [|y l1 l2 _ IH|y l1 l2 _ IH]; simpl; intros H; auto.
  destruct H; auto.
Qed.

Lemma subseq_tl (x : A) (l1 l2 : list A) :
  subseq (x :: l1) l2 -> subseq l1 l2.
Proof.
  remember (x :: l1) as l eqn:E. intros H. revert x l1 E.
  induction H as [|y k1 k2 H IH|y k1 k2 H IH]; intros x l1 E;
    [discriminate| |].
  - constructor. apply (IH x). exact E.
  - injection E as -> ->. constructor. exact H.
Qed.

Lemma subseq_skipn (n : nat) (l1 l2 : list A) :
  subseq l1 l2 -> subseq (skipn n l1) l2.
Proof.
  revert l1. induction n as [|n IH]; intros l1 H; [exact H|].
  destruct l1 as [|x l1]; [exact H|].
  cbn [skipn]. apply IH. apply (subseq_tl x). exact H.
Qed.

Lemma subseq_app (l1 l2 k1 k2 : list A) :
  subseq l1 l2 -> subseq k1 k2 -> subseq (l1 ++ k1) (l2 ++ k2).
Proof.
  induction 1 as [|y l1 l2 _ IH|y l1 l2 _ IH]; intros K; cbn [app];
    [exact K|apply subseq_skip; auto|apply subseq_keep; auto].
Qed.

Lemma subseq_sorted (R : A -> A -> Prop) (l1 l2 : list A) :
  subseq l1 l2 -> StronglySorted R l2 -> StronglySorted R l1.
Proof.
  induction 1 as [|y l1 l2 H IH|y l1 l2 H IH]; intros S; [constructor| |].
  - apply StronglySorted_inv in S as [S _]. auto.
  - apply StronglySorted_inv in S as [S F]. constructor; [auto|].
    rewrite Forall_forall in *. intros x Hx. apply F.
    apply (subseq_In l1 l2 x H Hx).
Qed.

End Subseq.

Lemma readings_subseq (ticks : list tick) :
  forall last,
    subseq (map fst (Sampler.readings last ticks)) (map ts ticks).
Proof.
  induction ticks as [|i rest IH]; intros last; [constructor|].
  cbn [Sampler.readings map].
  destruct (Sampler.read_value last (raw i)) as [[a|] last'];
    cbn [map fst]; constructor; apply IH.
Qed.

Lemma map_skipn {A B : Type} (f : A -> B) (n : nat) (l : list A) :
  map f (skipn n l) = skipn n (map f l).
Proof.
  revert l. induction n as [|n IH]; intros [|x l]; cbn; auto.
Qed.

(** X7. A run only appends to the full-history log: the points already
    logged stay as they are, at most one point is added per tick, and the
    added points carry stamps of the ticks, in tick order. *)
Theorem X7_log_append_only (address : Z) (s : App) (ticks : list tick) :
  exists new,
    series_all (Sampler.worker_run address s ticks) = series_all s ++ new
    /\ (List.length new <= List.length ticks)%nat
    /\ subseq (map fst new) (map ts ticks).
Proof.
  destruct (worker_run_log address ticks s) as [E _].
  exists (skipn (Z.to_nat (_warmup_left s))
            (Sampler.readings (_last_a_int s) ticks)).
  split; [exact E|].
  assert (S : subseq
                (map fst (skipn (Z.to_nat (_warmup_left s))
                            (Sampler.readings (_last_a_int s) ticks)))
                (map ts ticks)).
  { rewrite map_skipn. apply subseq_skipn, readings_subseq. }
  split; [|exact S].
  apply subseq_length in S. rewrite !length_map in S. exact S.
Qed.

Lemma sorted_points (l : list point) :
  StronglySorted Z.le (map fst l) -> StronglySorted Changes.ts_le l.
Proof.
  induction l as [|p l IH]; intros H; [constructor|].
  cbn [map] in H. apply StronglySorted_inv in H as [S F].
  constructor; [auto|].
  rewrite Forall_forall in *. intros q Hq. apply F, in_map, Hq.
Qed.

(** X8. When the stamps of the ticks of a run never go back, the log of
    the run is in stamp order, so the [sorted] of [on_save_excel] leaves it
    as it is and the exported changes are the selection applied to the log
    itself. *)
Theorem X8_ordered_run_exports_log
  (s : App) (mono address : Z) (ticks : list tick) :
  worker_alive s = false ->
  StronglySorted Z.le (map ts ticks) ->
  StronglySorted Changes.ts_le
    (series_all (Sampler.worker_run address (Sampler.on_start s mono) ticks))
  /\ Changes.sorted_by_ts
       (series_all
          (Sampler.worker_run address (Sampler.on_start s mono) ticks))
     = series_all
         (Sampler.worker_run address (Sampler.on_start s mono) ticks)
  /\ Changes.changes_of
       (series_all
          (Sampler.worker_run address (Sampler.on_start s mono) ticks))
     = Changes.compress
         (series_all
            (Sampler.worker_run address (Sampler.on_start s mono) ticks)).
Proof.
  intros Ha Hs.
  destruct (worker_run_log address ticks (Sampler.on_start s mono))
    as [E _].
  assert (S : StronglySorted Changes.ts_le
                (series_all
                   (Sampler.worker_run address (Sampler.on_start s mono)
                      ticks))).
  { rewrite E. unfold Sampler.on_start. rewrite Ha.
    cbn [series_all app]. apply sorted_points.
    rewrite map_skipn.
    apply (subseq_sorted Z.le _ (map ts ticks)); [|exact Hs].
    apply subseq_skipn, readings_subseq. }
  split; [exact S|].
  pose proof (sorted_by_ts_ordered _ S) as O.
  split; [exact O|]. unfold Changes.changes_of. rewrite O. reflexivity.
Qed.

Lemma X8_ordered_run_exports_log_witness :
  Changes.changes_of (series_all warm_state) = [(100, 5); (110, 5)].
Proof.
  refine (eq_trans
            (proj2 (proj2 (X8_ordered_run_exports_log Sampler.init 0 0
                             (ticks_of (repeat 8639 12) 0) eq_refl _))) _).
  - cbn. repeat (constructor; [|repeat (constructor; [lia|]); constructor]).
    constructor.
  - vm_compute. reflexivity.
Defined.

(* ================================================================== *)
(** * The trend: slots, plotted window, decimation, queue pump *)
(* ================================================================== *)

(** X11. A trend line made for channel slot [i] of 0..7 has eight slots,
    holds the value in slot [i] and nothing in the other slots, and the
    look-up of the plot (the first integer of the line) gives the value
    back. *)
Theorem X11_line_slot (i : Z) (a : option Z) :
  0 <= i < 8 ->
  List.length (Sampler.line i a) = 8%nat
  /\ nth (Z.to_nat i) (Sampler.line i a) None = a
  /\ (forall j, j <> Z.to_nat i -> nth j (Sampler.line i a) None = None)
  /\ Plot.first_int (Sampler.line i a) = a.
Proof.
  intros H.
  assert (E : i = 0 \/ i = 1 \/ i = 2 \/ i = 3 \/ i = 4 \/ i = 5 \/ i = 6
              \/ i = 7) by lia.
  destruct E as [->|[->|[->|[->|[->|[->|[->| ->]]]]]]];
    (split; [reflexivity|]); (split; [reflexivity|]);
    (split; [|destruct a; reflexivity]);
    intros j Hj;
    do 8 (destruct j as [|j]; [first [reflexivity | exfalso; apply Hj;
                                       reflexivity]|]);
    destruct j; reflexivity.
Qed.

Lemma X11_line_slot_witness :
  Plot.first_int (Sampler.line 3 (Some 42)) = Some 42.
Proof. apply (X11_line_slot 3 (Some 42)). lia. Defined.

Lemma range_from_spec (st n : Z) (fuel : nat) :
  0 < st ->
  forall i, n - i <= Z.of_nat fuel ->
  forall x, In x (Plot.range_from fuel i n st)
            <-> i <= x < n /\ (x - i) mod st = 0.
Proof.
  intros Hst. induction fuel as [|f IH]; intros i Hf x.
  - cbn. split; [intros []|lia].
  - cbn [Plot.range_from]. destruct (Z.ltb_spec i n) as [Hi|Hi].
    + cbn [In]. rewrite (IH (i + st)) by lia. split.
      * intros [<-|[Hx Hm]].
        -- rewrite Z.sub_diag. split; [lia|reflexivity].
        -- split; [lia|].
           replace (x - i) with (x - (i + st) + 1 * st) by lia.
           rewrite Z.mod_add by lia. exact Hm.
      * intros [Hx Hm]. destruct (Z.eq_dec x i) as [->|Hne]; [left; auto|].
        right.
        assert (D : x - i = st * ((x - i) / st))
          by (rewrite (Z.div_mod (x - i) st) at 1 by lia; lia).
        assert (1 <= (x - i) / st) by nia.
        split; [nia|].
        replace (x - (i + st)) with (x - i + (-1) * st) by lia.
        rewrite Z.mod_add by lia. exact Hm.
    + cbn. split; [intros []|lia].
Qed.

Lemma range_from_length (st n : Z) (fuel : nat) :
  0 < st ->
  forall i,
    Plot.range_from fuel i n st = []
    \/ i + (Z.of_nat (List.length (Plot.range_from fuel i n st)) - 1) * st < n.
Proof.
  intros Hst. induction fuel as [|f IH]; intros i; [left; reflexivity|].
  cbn [Plot.range_from]. destruct (Z.ltb_spec i n) as [Hi|Hi];
    [right|left; reflexivity].
  cbn [List.length]. destruct (IH (i + st)) as [->|H]; [cbn; lia|].
  nia.
Qed.

(** X12. The decimation of the plot: for a window of [n_full] lines on a
    canvas of any width, the step is at least 1, the indices drawn are the
    multiples of the step below [n_full], and there are at most [plot_w] of
    them (no more than one point per pixel). *)
Theorem X12_decimation (n_full w : Z) :
  0 <= n_full ->
  1 <= Plot.step n_full (Plot.plot_w w)
  /\ (forall x, In x (Plot.drawn n_full (Plot.step n_full (Plot.plot_w w)))
                <-> 0 <= x < n_full
                    /\ x mod Plot.step n_full (Plot.plot_w w) = 0)
  /\ Z.of_nat
       (List.length (Plot.drawn n_full (Plot.step n_full (Plot.plot_w w))))
     <= Plot.plot_w w.
Proof.
  intros Hn.
  set (pw := Plot.plot_w w). set (st := Plot.step n_full pw).
  assert (Hpw : 10 <= pw) by (unfold pw, Plot.plot_w; lia).
  assert (Hst : 1 <= st) by (unfold st, Plot.step; lia).
  assert (Hcov : n_full <= st * pw).
  { pose proof (Z.div_mod (n_full + pw - 1) pw ltac:(lia)) as D.
    pose proof (Z.mod_pos_bound (n_full + pw - 1) pw ltac:(lia)) as B.
    assert ((n_full + pw - 1) / pw <= st) by (unfold st, Plot.step; lia).
    nia. }
  split; [exact Hst|]. split.
  - intros x. unfold Plot.drawn.
    rewrite (range_from_spec st n_full (Z.to_nat n_full)) by lia.
    rewrite Z.sub_0_r. reflexivity.
  - unfold Plot.drawn.
    destruct (range_from_length st n_full (Z.to_nat n_full) ltac:(lia) 0)
      as [->|H]; [cbn; lia|].
    nia.
Qed.

Lemma X12_decimation_witness :
  Z.of_nat (List.length (Plot.drawn 6000 (Plot.step 6000 (Plot.plot_w 940))))
  <= Plot.plot_w 940.
Proof. apply (X12_decimation 6000 940). lia. Defined.

(** X13. The plot never looks further back than the capacity: in every
    state the application reaches, also after the window was shortened
    and the buffer still holds more, the window plotted is the most recent
    [trend_buffer_max] lines of the buffer. *)
Theorem X13_plotted_window (s : App) :
  reachable s ->
  Plot.data_window s = lastn (trend_buffer_max s) (trend_buffer s)
  /\ Z.of_nat (List.length (Plot.data_window s)) <= trend_buffer_max s
  /\ (Z.of_nat (List.length (trend_buffer s)) <= trend_buffer_max s ->
      Plot.data_window s = trend_buffer s).
Proof.
  intros H. pose proof (capacity_ok_pos s (reachable_capacity s H)) as P.
  unfold Plot.data_window. rewrite slice_from_neg by exact P.
  split; [reflexivity|]. split; [apply lastn_length; lia|].
  apply lastn_short.
Qed.

Lemma X13_plotted_window_witness :
  Plot.data_window warm_state = trend_buffer warm_state.
Proof.
  apply (X13_plotted_window warm_state warm_state_reachable).
  vm_compute. discriminate.
Defined.

Lemma process_items_trend (q : list queue_item) :
  forall s,
    trend_buffer (fold_left Sampler._process_queue_item q s)
    = fold_left
        (fun b x => Sampler.trend_append b (trend_buffer_max s) x)
        (queued_lines (Z.max 1 (Z.min 8 (fast_channel_var s)) - 1) q)
        (trend_buffer s).
Proof.
  induction q as [|item q IH]; intros s; [reflexivity|].
  cbn [fold_left]. rewrite IH. destruct item; reflexivity.
Qed.

Lemma trend_append_many (cap : Z) (x : trend_point) (xs buf : list trend_point) :
  0 < cap ->
  fold_left (fun b y => Sampler.trend_append b cap y) (x :: xs) buf
  = lastn cap (buf ++ x :: xs).
Proof.
  intros H. cbn [fold_left]. rewrite trend_append_lastn by exact H.
  rewrite (trend_append_all cap xs H (buf ++ [x])), <- app_assoc.
  reflexivity.
Qed.

(** X14. Pumping the queue empties it and leaves the log alone; the trend
    buffer receives one line per queued value, in queue order, and keeps
    the most recent [trend_buffer_max] lines; status messages add nothing,
    and with no value queued the buffer is not touched. *)
Theorem X14_queue_pump (s : App) :
  reachable s ->
  data_queue (Sampler._schedule_queue_pump s) = []
  /\ series_all (Sampler._schedule_queue_pump s) = series_all s
  /\ trend_buffer (Sampler._schedule_queue_pump s)
     = match queued_lines (Z.max 1 (Z.min 8 (fast_channel_var s)) - 1)
               (data_queue s) with
       | [] => trend_buffer s
       | x :: xs => lastn (trend_buffer_max s) (trend_buffer s ++ x :: xs)
       end.
Proof.
  intros H. pose proof (capacity_ok_pos s (reachable_capacity s H)) as P.
  unfold Sampler._schedule_queue_pump.
  match goal with |- context [fold_left _ ?q ?s0] =>
    destruct (pump_keeps q s0) as (E1 & _ & E3 & _);
    pose proof (process_items_trend q s0) as E4 end.
  rewrite E1, E3, E4. cbn [data_queue series_all trend_buffer
    trend_buffer_max fast_channel_var].
  split; [reflexivity|]. split; [reflexivity|].
  destruct (queued_lines _ (data_queue s)) as [|x xs]; [reflexivity|].
  apply trend_append_many, P.
Qed.

Lemma X14_queue_pump_witness :
  data_queue (Sampler._schedule_queue_pump warm_state) = []
  /\ trend_buffer (Sampler._schedule_queue_pump warm_state)
     = [(110, [Some 5; None; None; None; None; None; None; None]);
        (100, [Some 5; None; None; None; None; None; None; None])].
Proof.
  destruct (X14_queue_pump warm_state warm_state_reachable) as (H1 & _ & H3).
  split; [exact H1|exact H3].
Defined.

(* ================================================================== *)
(** * The elapsed-time label *)
(* ================================================================== *)

(** X15. The hours, minutes and seconds of the timer label add up to the
    elapsed seconds, with minutes and seconds within 0..59, and the hours
    are not negative when the elapsed time is not. *)
Theorem X15_timer_fields (total : Z) :
  fst (fst (Timer.fields total)) * 3600
  + snd (fst (Timer.fields total)) * 60
  + snd (Timer.fields total) = total
  /\ 0 <= snd (fst (Timer.fields total)) < 60
  /\ 0 <= snd (Timer.fields total) < 60
  /\ (0 <= total -> 0 <= fst (fst (Timer.fields total))).
Proof.
  unfold Timer.fields. cbn [fst snd].
  pose proof (Z.div_mod total 3600 ltac:(lia)) as D1.
  pose proof (Z.mod_pos_bound total 3600 ltac:(lia)) as B1.
  pose proof (Z.div_mod (total mod 3600) 60 ltac:(lia)) as D2.
  pose proof (Z.mod_pos_bound (total mod 3600) 60 ltac:(lia)) as B2.
  assert (M : total mod 60 = (total mod 3600) mod 60).
  { rewrite D1 at 1.
    replace (3600 * (total / 3600) + total mod 3600)
      with (total mod 3600 + 60 * (total / 3600) * 60) by lia.
    apply Z.mod_add. lia. }
  rewrite M.
  assert (0 <= total mod 3600 / 60 < 60)
    by (split; [apply Z.div_pos; lia|apply Z.div_lt_upper_bound; lia]).
  split; [lia|]. split; [lia|]. split; [lia|].
  intros Ht. apply Z.div_pos; lia.
Qed.

(* ================================================================== *)
(** * What reaches the trend buffer *)
(* ================================================================== *)

Lemma Forall_skipn {A : Type} (P : A -> Prop) (n : nat) (l : list A) :
  Forall P l -> Forall P (skipn n l).
Proof.
  revert l. induction n as [|n IH]; intros l H; [exact H|].
  destruct H; [constructor|]. cbn [skipn]. apply IH. assumption.
Qed.

Lemma trend_append_Forall (P : trend_point -> Prop)
      (buf : list trend_point) (cap : Z) (x : trend_point) :
  Forall P buf -> P x -> Forall P (Sampler.trend_append buf cap x).
Proof.
  intros Hb Hx. assert (H : Forall P (buf ++ [x])).
  { apply Forall_app. split; [exact Hb|]. constructor; [exact Hx|constructor]. }
  unfold Sampler.trend_append. destruct (_ >? cap); [|exact H].
  unfold Py.slice_from. apply Forall_skipn, H.
Qed.

Lemma line_ok_line (i t v : Z) :
  0 <= i < 8 -> 0 <= v <= 63 -> line_ok (t, Sampler.line i (Some v)).
Proof.
  intros Hi Hv. exists v. split; [|exact Hv]. cbn [snd].
  assert (E : i = 0 \/ i = 1 \/ i = 2 \/ i = 3 \/ i = 4 \/ i = 5 \/ i = 6
              \/ i = 7) by lia.
  destruct E as [->|[->|[->|[->|[->|[->|[->| ->]]]]]]]; reflexivity.
Qed.

Lemma process_queue_item_trend_ok (s : App) (item : queue_item) :
  Forall line_ok (trend_buffer s) -> item_ok item ->
  Forall line_ok (trend_buffer (Sampler._process_queue_item s item)).
Proof.
  intros Hb Hi. destruct item as [t [v|]|txt]; cbn in Hi; [|contradiction|
    exact Hb].
  cbn [Sampler._process_queue_item Sampler.with_trend trend_buffer].
  apply trend_append_Forall; [exact Hb|].
  apply line_ok_line; [lia|exact Hi].
Qed.

Lemma pump_trend_ok (q : list queue_item) :
  Forall item_ok q ->
  forall s, Forall line_ok (trend_buffer s) ->
            Forall line_ok
              (trend_buffer (fold_left Sampler._process_queue_item q s)).
Proof.
  induction 1 as [|item q Hi _ IH]; intros s Hb; [exact Hb|].
  cbn [fold_left]. apply IH, process_queue_item_trend_ok; assumption.
Qed.

Lemma worker_step_trend_ok (address : Z) (s : App) (i : tick) :
  0 <= address < 8 -> trend_ok s ->
  trend_ok (Sampler.worker_step address s i).
Proof.
  intros Ha (Hb & Hq & Hl).
  destruct (read_value_range (_last_a_int s) (raw i) Hl) as [Hv Hl'].
  unfold Sampler.worker_step.
  destruct (Sampler.read_value (_last_a_int s) (raw i)) as [[a|] last];
    cbn [fst snd] in Hv, Hl'; [|split; [|split]; assumption].
  assert (Hr : 0 <= a <= 63) by (apply Hv; reflexivity).
  destruct (_warmup_left s >? 0); [split; [|split]; assumption|].
  destruct (mono_test i >=? next_ui_push s); (split; [|split]);
    cbn [trend_buffer data_queue _last_a_int]; try assumption.
  - apply Forall_app. split; [exact Hq|].
    constructor; [exact Hr|constructor].
  - apply trend_append_Forall; [exact Hb|].
    apply line_ok_line; assumption.
Qed.

Lemma set_trend_window_trend_ok (s : App) (seconds : Z) :
  trend_ok s -> trend_ok (Sampler._set_trend_window s seconds).
Proof. exact (fun H => H). Qed.

Lemma reachable_trend_ok (s : App) : reachable s -> trend_ok s.
Proof.
  induction 1 as [|s mono _ IH|s _ IH|s address i _ IH _ Ha|s _ IH
                  |s label _ IH|s _ IH].
  - split; [constructor|]. split; [constructor|discriminate].
  - unfold Sampler.on_start. destruct (worker_alive s); [exact IH|].
    destruct IH as (_ & Hq & _).
    split; [constructor|]. split; [exact Hq|discriminate].
  - unfold Sampler.on_stop. destruct (worker_alive s); [|exact IH].
    destruct IH as (Hb & Hq & Hl). split; [exact Hb|]. split; [|exact Hl].
    cbn [data_queue]. apply Forall_app. split; [exact Hq|].
    constructor; [exact I|constructor].
  - apply worker_step_trend_ok; assumption.
  - destruct IH as (Hb & Hq & Hl). unfold Sampler._schedule_queue_pump.
    match goal with |- trend_ok (fold_left _ ?q ?s0) =>
      destruct (pump_keeps q s0) as (_ & E2 & E3 & _);
      pose proof (pump_trend_ok q Hq s0 Hb) as T end.
    unfold trend_ok. rewrite E2, E3.
    split; [exact T|]. split; [constructor|exact Hl].
  - unfold Sampler._on_trend_window_change.
    repeat match goal with |- context [if ?b then _ else _] =>
      destruct b; [apply set_trend_window_trend_ok, IH|] end.
    exact IH.
  - destruct IH as (_ & Hq & _).
    split; [constructor|]. split; [exact Hq|discriminate].
Qed.

(** X24. In every state the application reaches, every line of the trend
    buffer gives the plot a value within 0..63 A, and every value message
    waiting in the queue carries such a value: the plot never meets a line
    without a number. *)
Theorem X24_trend_lines_carry_values (s : App) :
  reachable s ->
  (forall p, In p (trend_buffer s) ->
     exists v, Plot.first_int (snd p) = Some v /\ 0 <= v <= 63)
  /\ (forall t a, In (Values t a) (data_queue s) ->
        exists v, a = Some v /\ 0 <= v <= 63)
  /\ Forall (fun x => exists v, x = Some v /\ 0 <= v <= 63)
       (Plot.series_vals (Plot.data_window s)).
Proof.
  intros H. destruct (reachable_trend_ok s H) as (Hb & Hq & _).
  split; [|split].
  - rewrite Forall_forall in Hb. exact Hb.
  - intros t a Hi. rewrite Forall_forall in Hq. specialize (Hq _ Hi).
    destruct a as [v|]; [exists v; auto|contradiction].
  - unfold Plot.series_vals, Plot.data_window, Py.slice_from.
    rewrite Forall_map. apply Forall_skipn.
    rewrite Forall_forall in *. intros p Hp.
    destruct (Hb p Hp) as (v & E & Hv). exists v. auto.
Qed.

Lemma X24_trend_lines_carry_values_witness :
  Forall (fun x => exists v, x = Some v /\ 0 <= v <= 63)
    (Plot.series_vals (Plot.data_window warm_state)).
Proof.
  exact (proj2 (proj2 (X24_trend_lines_carry_values warm_state
                         warm_state_reachable))).
Defined.



(* ================================================================== *)
(** * Channel control *)
(* ================================================================== *)

Lemma fast_ch_range (var : Z) : 1 <= Channels.fast_ch var <= 8.
Proof. unfold Channels.fast_ch. lia. Qed.

Lemma write_reg_connected (k : Channels.Link) (address value : Z) :
  Channels.connected k = true ->
  Channels.write_reg k address value
  = Channels.mkLink (Channels.is_connected k) true (Channels._muted k)
      (Channels.issued k ++ [(address, Z.land value 0xFFFF)]).
Proof. intros H. unfold Channels.write_reg. rewrite H. reflexivity. Qed.

Lemma write_reg_no_client (k : Channels.Link) (address value : Z) :
  Channels.connected k = false -> Channels.write_reg k address value = k.
Proof. intros H. unfold Channels.write_reg. rewrite H. reflexivity. Qed.

Lemma mute_issued (k : Channels.Link) (ch : Z) :
  Channels.is_connected k = true -> Channels.connected k = true ->
  Channels._mute_others_and_enable_selected k ch
  = Channels.mkLink true true true
      (Channels.issued k
       ++ [(49, 1); (8, 0); (9, 0); (10, 0); (11, 0); (12, 0); (13, 0);
           (14, 0); (15, 0); (8 + (ch - 1), 1); (49, 0)]).
Proof.
  intros Hi Hc. destruct k as [i c m ws]. cbn in Hi, Hc. subst.
  unfold Channels._mute_others_and_enable_selected, Channels.write_all,
    Channels.write_reg, Channels.set_muted.
  cbn. rewrite <- !app_assoc. reflexivity.
Qed.

Lemma restore_issued (k : Channels.Link) :
  Channels.is_connected k = true -> Channels.connected k = true ->
  Channels._muted k = true ->
  Channels._restore_channels k
  = Channels.mkLink true true false
      (Channels.issued k
       ++ [(49, 1); (8, 1); (9, 1); (10, 1); (11, 1); (12, 1); (13, 1);
           (14, 1); (15, 1); (49, 0)]).
Proof.
  intros Hi Hc Hm. destruct k as [i c m ws]. cbn in Hi, Hc, Hm. subst.
  unfold Channels._restore_channels, Channels.write_all,
    Channels.write_reg, Channels.set_muted.
  cbn. rewrite <- !app_assoc. reflexivity.
Qed.

Ltac replay_cases :=
  unfold Channels.replay, Channels.store; cbn [app fold_left fst snd];
  repeat match goal with
         | |- context [?a =? ?b] => destruct (Z.eqb_spec a b)
         end; try lia; try reflexivity.

(** X16. Muting for a run: with the connection up, the writes sent open
    the write lock (register 49) first and close it last and, carried out
    by the device, leave exactly the selected channel enabled among
    registers 8..15, the lock closed and every other register as it was;
    the channel is the entry clipped to 1..8 and [_muted] is set. *)
Theorem X16_mute_selects_one_channel (k : Channels.Link) (var : Z) :
  Channels.is_connected k = true ->
  Channels.connected k = true ->
  Channels._muted
    (Channels._mute_others_and_enable_selected k (Channels.fast_ch var))
  = true
  /\ exists ws,
       Channels.issued
         (Channels._mute_others_and_enable_selected k (Channels.fast_ch var))
       = Channels.issued k ++ ws
       /\ hd_error ws = Some (49, 1)
       /\ last ws (0, 0) = (49, 0)
       /\ forall r,
            Channels.replay r ws 49 = 0
            /\ (forall j, 1 <= j <= 8 ->
                  Channels.replay r ws (7 + j)
                  = if j =? Channels.fast_ch var then 1 else 0)
            /\ (forall a, a <> 49 -> ~ 8 <= a <= 15 ->
                  Channels.replay r ws a = r a).
Proof.
  intros Hi Hc. rewrite (mute_issued k _ Hi Hc).
  pose proof (fast_ch_range var) as Hr.
  split; [reflexivity|]. eexists. split; [reflexivity|].
  split; [reflexivity|]. split; [reflexivity|].
  intros r. split; [reflexivity|]. split.
  - intros j Hj. replay_cases.
  - intros a Ha Hb. replay_cases.
Qed.

Lemma X16_mute_selects_one_channel_witness :
  Channels.issued
    (Channels._mute_others_and_enable_selected
       (Channels.mkLink true true false []) (Channels.fast_ch 3))
  = [(49, 1); (8, 0); (9, 0); (10, 0); (11, 0); (12, 0); (13, 0);
     (14, 0); (15, 0); (10, 1); (49, 0)].
Proof.
  destruct (X16_mute_selects_one_channel
              (Channels.mkLink true true false []) 3 eq_refl eq_refl)
    as (_ & ws & E & _).
  reflexivity.
Defined.

(** X17. Restoring after a mute: the writes of
    [_mute_others_and_enable_selected] followed by those of
    [_restore_channels], carried out by the device, leave all eight
    channels enabled, the write lock closed and every other register as it
    was, whichever channel had been selected; [_muted] is cleared. *)
Theorem X17_restore_undoes_mute (k : Channels.Link) (var : Z) :
  Channels.is_connected k = true ->
  Channels.connected k = true ->
  Channels._muted
    (Channels._restore_channels
       (Channels._mute_others_and_enable_selected k (Channels.fast_ch var)))
  = false
  /\ exists ws,
       Channels.issued
         (Channels._restore_channels
            (Channels._mute_others_and_enable_selected k
               (Channels.fast_ch var)))
       = Channels.issued k ++ ws
       /\ last ws (0, 0) = (49, 0)
       /\ forall r,
            Channels.replay r ws 49 = 0
            /\ (forall j, 1 <= j <= 8 -> Channels.replay r ws (7 + j) = 1)
            /\ (forall a, a <> 49 -> ~ 8 <= a <= 15 ->
                  Channels.replay r ws a = r a).
Proof.
  intros Hi Hc. rewrite (mute_issued k _ Hi Hc).
  rewrite restore_issued by reflexivity. cbn [Channels.issued].
  pose proof (fast_ch_range var) as Hr.
  split; [reflexivity|]. rewrite <- app_assoc. eexists.
  split; [reflexivity|]. split; [reflexivity|].
  intros r. split; [reflexivity|]. split.
  - intros j Hj. replay_cases.
  - intros a Ha Hb. replay_cases.
Qed.

Lemma X17_restore_undoes_mute_witness :
  Channels._muted
    (Channels._restore_channels
       (Channels._mute_others_and_enable_selected
          (Channels.mkLink true true false []) (Channels.fast_ch 3)))
  = false.
Proof.
  exact (proj1 (X17_restore_undoes_mute
                  (Channels.mkLink true true false []) 3 eq_refl eq_refl)).
Defined.

(** X18. Nothing is written when it should not be: [_restore_channels]
    sends no write unless a mute is recorded and the window is connected,
    and clears [_muted] in any case; without a connected client neither
    operation sends anything, although a mute is then still recorded. *)
Theorem X18_no_stray_writes (k : Channels.Link) (ch : Z) :
  (Channels._muted k = false \/ Channels.is_connected k = false ->
   Channels.issued (Channels._restore_channels k) = Channels.issued k)
  /\ Channels._muted (Channels._restore_channels k) = false
  /\ (Channels.is_connected k = false ->
      Channels._mute_others_and_enable_selected k ch = k)
  /\ (Channels.connected k = false ->
      Channels.issued (Channels._mute_others_and_enable_selected k ch)
      = Channels.issued k
      /\ Channels.issued (Channels._restore_channels k) = Channels.issued k
      /\ Channels._muted (Channels._mute_others_and_enable_selected k ch)
         = (Channels.is_connected k || Channels._muted k)%bool).
Proof.
  destruct k as [i c m ws].
  unfold Channels._restore_channels, Channels._mute_others_and_enable_selected,
    Channels.write_all, Channels.write_reg, Channels.set_muted.
  cbn [Channels.is_connected Channels.connected Channels._muted
       Channels.issued].
  split; [|split; [|split]].
  - intros [->| ->]; [reflexivity|]. rewrite orb_true_r. reflexivity.
  - destruct m, i; reflexivity.
  - intros ->. reflexivity.
  - intros ->. destruct m, i; cbn; auto.
Qed.

Lemma X18_no_stray_writes_witness :
  Channels.issued
    (Channels._restore_channels (Channels.mkLink true true false [(49, 0)]))
  = [(49, 0)].
Proof.
  apply (proj1 (X18_no_stray_writes
                  (Channels.mkLink true true false [(49, 0)]) 1)).
  left. reflexivity.
Defined.

(** X19. The handshake of [on_connect] succeeds exactly when one of the
    first three reads returns at least one register; it makes between one
    and three reads, stops at the first read that answers, and makes all
    three when none does. *)
Theorem X19_handshake (reads : nat -> option (list Z)) :
  (fst (Channels.handshake reads) = true
   <-> exists k, (k < 3)%nat /\ Channels.answered (reads k) = true)
  /\ (1 <= snd (Channels.handshake reads) <= 3)%nat
  /\ (fst (Channels.handshake reads) = true ->
      Channels.answered (reads (snd (Channels.handshake reads) - 1)%nat)
      = true
      /\ forall j, (j < snd (Channels.handshake reads) - 1)%nat ->
                   Channels.answered (reads j) = false)
  /\ (fst (Channels.handshake reads) = false ->
      snd (Channels.handshake reads) = 3%nat).
Proof.
  unfold Channels.handshake. cbn [Channels.handshake_from].
  destruct (Channels.answered (reads 0%nat)) eqn:E0;
    [|destruct (Channels.answered (reads 1%nat)) eqn:E1;
      [|destruct (Channels.answered (reads 2%nat)) eqn:E2]];
    cbn [fst snd Nat.sub].
  - split; [split; [exists 0%nat; auto|reflexivity]|].
    split; [lia|]. split; [|discriminate].
    intros _. split; [exact E0|]. intros j Hj. lia.
  - split; [split; [exists 1%nat; auto|reflexivity]|].
    split; [lia|]. split; [|discriminate].
    intros _. split; [exact E1|]. intros j Hj.
    replace j with 0%nat by lia. exact E0.
  - split; [split; [exists 2%nat; auto|reflexivity]|].
    split; [lia|]. split; [|discriminate].
    intros _. split; [exact E2|]. intros j Hj.
    destruct j as [|[|j]]; [exact E0|exact E1|lia].
  - split.
    + split; [discriminate|]. intros (k & Hk & Ha).
      destruct k as [|[|[|k]]]; [congruence|congruence|congruence|lia].
    + split; [lia|]. split; [discriminate|reflexivity].
Qed.

(* ================================================================== *)
(** * The sheets of the export *)
(* ================================================================== *)

Lemma retain_after_subseq (r : list point) :
  forall v, subseq (Changes.retain_after v r) r.
Proof.
  induction r as [|p r IH]; intros v; [constructor|].
  cbn [Changes.retain_after].
  destruct (snd p =? v); [apply subseq_skip|apply subseq_keep]; apply IH.
Qed.

Lemma retained_subseq (rows : list point) :
  subseq (Changes.retained rows) rows.
Proof.
  destruct rows as [|p r]; [constructor|].
  cbn [Changes.retained]. apply subseq_keep, retain_after_subseq.
Qed.

Lemma compress_subseq (rows : list point) :
  subseq (Changes.compress rows) rows.
Proof.
  rewrite compress_refines.
    destruct (snoc_cases rows) as [->|(init & x & ->)]; [constructor|].
    destruct init as [|p r].
    - cbn. rewrite Z.eqb_refl. apply subseq_refl.
    - cbn [app]. rewrite compress_spec_cons.
      rewrite (last_cons_self p (r ++ [x])), last_last.
      rewrite (retain_after_app r [x] (snd p)).
      cbn [Changes.retain_after].
      destruct (snd x =? _) eqn:E.
      + destruct (_ =? fst x).
        * apply subseq_keep.
          apply (subseq_app _ _ [] [x] (retain_after_subseq r (snd p))
                   (subseq_nil_l [x])).
        * rewrite app_nil_r.
          apply (subseq_app (p :: Changes.retain_after (snd p) r) (p :: r)
                   [x] [x]);
            [apply subseq_keep, retain_after_subseq|apply subseq_refl].
      + rewrite (last_cons_self p (_ ++ [x])), last_last, Z.eqb_refl.
        apply subseq_keep.
        apply subseq_app; [apply retain_after_subseq|apply subseq_refl].
Qed.

(** X20. The selection invents nothing: its output keeps points of the
    input, each at most once and in the input's order; so it is never
    longer than the input and every change exported is a logged point. *)
Theorem X20_changes_are_logged_points (rows : list point) :
  subseq (Changes.compress rows) rows
  /\ (List.length (Changes.compress rows) <= List.length rows)%nat
  /\ (forall p, In p (Changes.compress rows) -> In p rows).
Proof.
  pose proof (compress_subseq rows) as S.
  split; [exact S|]. split; [apply subseq_length, S|].
  intros p. apply subseq_In, S.
Qed.

(** X21. The selection spans the input: for a log that is not empty, its
    first point is the first point of the log, and its last point has the
    stamp and the value of the last point of the log. *)
Theorem X21_changes_span_the_log (p : point) (r : list point) :
  hd p (Changes.compress (p :: r)) = p
  /\ fst (last (Changes.compress (p :: r)) p) = fst (last (p :: r) p)
  /\ snd (last (Changes.compress (p :: r)) p) = snd (last (p :: r) p).
Proof.
  rewrite compress_refines, compress_spec_cons.
  pose proof (kept_last_value p r) as HV.
  destruct (_ =? _) eqn:E.
  - apply Z.eqb_eq in E. auto.
  - cbn [app hd]. split; [reflexivity|].
    rewrite (last_cons_self p (_ ++ _)), last_last. auto.
Qed.





